(** * Order lifecycle controller (backend/controllers/orderController.js)

    A shallow embedding of the Express handlers [placeOrder], [verifyOrder],
    [stripeWebhookHandler] and [updateStatus].  Every handler is a function
    from the request, the outcome of the external calls it awaits during
    that request, and the stores, to the HTTP response and the new stores.

    JavaScript numbers are IEEE binary64 values, so they are embedded as the
    primitive floats of Rocq; the order collection is a list in insertion
    order (which [findOne] observes) and the user collection a finite map
    keyed by user id. *)

From Stdlib Require Import ZArith Floats Uint63 String List Bool Lia.
From Stdlib Require Import Sorted Permutation.
From stdpp Require Import base strings gmap pretty.
Import ListNotations.

Local Open Scope string_scope.
Local Open Scope list_scope.

(** ** JavaScript values and coercions *)

(** The primitive values a JSON request body, [process.env] or the Stripe SDK
    hand to the controller. *)
Inductive value : Type :=
| VUndefined
| VNull
| VBool (b : bool)
| VNum (n : float)
| VStr (s : string).

(** ToBoolean on a number: NaN, +0 and -0 are falsy. *)
Definition truthy_num (n : float) : bool :=
  negb (PrimFloat.is_nan n || PrimFloat.eqb n 0%float).

(** ToBoolean on a string: only the empty string is falsy. *)
Definition truthy_str (s : string) : bool :=
  negb (String.eqb s "").

(** ToBoolean. *)
Definition truthy (v : value) : bool :=
  match v with
  | VUndefined | VNull => false
  | VBool b => b
  | VNum n => truthy_num n
  | VStr s => truthy_str s
  end.

(** [a || b]: the first operand when it is truthy, else the second. *)
Definition js_or (a b : value) : value := if truthy a then a else b.

(** [v === 'lit'] for a string literal. *)
Definition is_str (v : value) (lit : string) : bool :=
  match v with
  | VStr s => String.eqb s lit
  | _ => false
  end.

(** [Math.round]: the integral number closest to [x], ties towards
    +infinity; NaN, the infinities and integral values are returned as they
    are, and a result of zero keeps the sign of [x].  A finite binary64
    value is [(-1)^s * m * 2^e]; below, [e < 0] bounds it by [2^52], so the
    rounded integer converts back exactly. *)
Definition Math_round (x : float) : float :=
  match Prim2SF x with
  | S754_finite s m e =>
      if (0 <=? e)%Z then x
      else
        let k := (- e)%Z in
        let sm := if s then (- Z.pos m)%Z else Z.pos m in
        let r := ((2 * sm + 2 ^ k) / 2 ^ (k + 1))%Z in
        if (r =? 0)%Z then (if s then (-0)%float else 0%float)
        else if (r <? 0)%Z
             then PrimFloat.opp (PrimFloat.of_uint63 (Uint63.of_Z (- r)))
             else PrimFloat.of_uint63 (Uint63.of_Z r)
  | _ => x
  end.

(** ** Documents *)

(** An item of [req.body.items] as the client sent it. *)
Record RawItem : Type := mkRawItem {
  raw_id : value;
  raw_name : value;
  raw_price : value;
  raw_quantity : value;
  raw_image : value
}.

(** An item after normalisation (the object literal of the [items.map]
    callback); [image] is present only when the raw image was truthy. *)
Record Item : Type := mkItem {
  item_id : value;
  name : value;
  price : float;
  quantity : float;
  image : option value
}.

Definition Address : Type := list (string * value).

(** Modelled from the spec: the order schema of models/orderModel.js, which
    the controller imports; the fields are the ones the controller writes
    ([stripeSessionId] is absent until a checkout session is attached). *)
Record Order : Type := mkOrder {
  _id : string;
  userId : value;
  items : list Item;
  amount : value;
  address : Address;
  payment : bool;
  paymentMethod : value;
  status : value;
  createdAt : Z;
  stripeSessionId : option string
}.

(** Modelled from the spec: the cart-relevant slice of models/userModel.js,
    a mapping from product identifier to quantity. *)
Record User : Type := mkUser {
  account : string;
  cartData : gmap string Z
}.

(** ** Payment gateway *)

Record LineItem : Type := mkLineItem {
  currency : string;
  product_name : value;
  unit_amount : float;
  li_quantity : float
}.

(** The argument of [stripe.checkout.sessions.create]. *)
Record CheckoutRequest : Type := mkCheckoutRequest {
  line_items : list LineItem;
  success_url : string;
  cancel_url : string;
  metadata_orderId : string
}.

(** The session the gateway returns: [id] and a [url] that may be null. *)
Record StripeSession : Type := mkStripeSession {
  session_id : string;
  session_url : option string
}.

(** The [data.object] of a webhook event. *)
Record EventSession : Type := mkEventSession {
  metadata : option (option string);   (* metadata, and its orderId entry *)
  id : option string
}.

Record Event : Type := mkEvent {
  type : string;
  data_object : EventSession
}.

(** ** Stores and responses *)

Record World : Type := mkWorld {
  orders : list Order;                 (* orderModel collection *)
  users : gmap string User;            (* userModel collection *)
  gateway : list CheckoutRequest       (* sessions requested from Stripe *)
}.

Inductive Body : Type :=
| BMessage (success : bool) (message : string)
| BOrder (order : Order) (message : string)
| BSession (url : string)
| BReceived
| BText (text : string)
| BEmpty.

Record Response : Type := mkResponse {
  statusCode : Z;
  body : Body
}.

Definition respond (code : Z) (b : Body) : Response :=
  {| statusCode := code; body := b |}.

(** [res.json(b)] without [res.status]: Express answers 200. *)
Definition json (b : Body) : Response := respond 200 b.

(** ** Persistence layer (Mongoose) *)

(** [orderModel.findByIdAndUpdate(id, patch)]: patches the document whose
    [_id] is [id]; a collection without such a document is left as it is. *)
Fixpoint findByIdAndUpdate (key : string) (patch : Order -> Order)
    (os : list Order) : list Order :=
  match os with
  | [] => []
  | o :: rest =>
      if String.eqb (_id o) key then patch o :: rest
      else o :: findByIdAndUpdate key patch rest
  end.

(** The same call with an id that comes from a request body: only a string
    can name a document. *)
Definition findByIdAndUpdate_value (key : value) (patch : Order -> Order)
    (os : list Order) : list Order :=
  match key with
  | VStr s => findByIdAndUpdate s patch os
  | _ => os
  end.

(** [orderModel.findOne({ stripeSessionId: sid })]: the first match. *)
Fixpoint findOne_bySession (sid : string) (os : list Order) : option Order :=
  match os with
  | [] => None
  | o :: rest =>
      match stripeSessionId o with
      | Some s => if String.eqb s sid then Some o else findOne_bySession sid rest
      | None => findOne_bySession sid rest
      end
  end.

(** [userModel.findByIdAndUpdate(userId, { cartData: {} })]. *)
Definition clearCart (uid : value) (us : gmap string User) : gmap string User :=
  match uid with
  | VStr s => alter (fun u => {| account := account u; cartData := ∅ |}) s us
  | _ => us
  end.

(** The patches the controller sends. *)
Definition set_paid (o : Order) : Order :=
  {| _id := _id o; userId := userId o; items := items o; amount := amount o;
     address := address o; payment := true; paymentMethod := paymentMethod o;
     status := VStr "confirmed"; createdAt := createdAt o;
     stripeSessionId := stripeSessionId o |}.

Definition set_status (st : value) (o : Order) : Order :=
  {| _id := _id o; userId := userId o; items := items o; amount := amount o;
     address := address o; payment := payment o;
     paymentMethod := paymentMethod o; status := st; createdAt := createdAt o;
     stripeSessionId := stripeSessionId o |}.

Definition set_stripeSessionId (sid : string) (o : Order) : Order :=
  {| _id := _id o; userId := userId o; items := items o; amount := amount o;
     address := address o; payment := payment o;
     paymentMethod := paymentMethod o; status := status o;
     createdAt := createdAt o; stripeSessionId := Some sid |}.

Definition with_orders (w : World) (os : list Order) : World :=
  {| orders := os; users := users w; gateway := gateway w |}.

Definition with_users (w : World) (us : gmap string User) : World :=
  {| orders := orders w; users := us; gateway := gateway w |}.

Definition with_gateway (w : World) (g : list CheckoutRequest) : World :=
  {| orders := orders w; users := users w; gateway := g |}.

(** ** Requests, and what the awaited calls answer *)

(** [req.user], when some middleware attached one. *)
Record AuthUser : Type := mkAuthUser {
  user_id : value;
  user__id : value
}.

Record PlaceRequest : Type := mkPlaceRequest {
  body_userId : value;                    (* req.body.userId *)
  req_userId : value;                     (* req.userId *)
  req_user : option AuthUser;             (* req.user *)
  body_items : option (list RawItem);     (* None: absent or not an array *)
  body_amount : value;
  body_address : Address;
  body_paymentMethod : value
}.

(** [process.env]: a variable is unset or holds a string. *)
Record ProcessEnv : Type := mkProcessEnv {
  FRONTEND_URL : option string;
  DELIVERY_FEE : option string;
  STRIPE_WEBHOOK_SECRET : option string
}.

(** What the awaited calls of one [placeOrder] request
    yield: [Some msg] and [inl msg] stand for a rejection with
    [Error(msg)]. *)
Record PlaceEnv : Type := mkPlaceEnv {
  place_env : ProcessEnv;
  new_id : string;                        (* the _id of new orderModel(...) *)
  now : Z;                                (* new Date() *)
  save_error : option string;             (* newOrder.save() *)
  cart_error : bool;                      (* userModel.findByIdAndUpdate *)
  sessions_create : string + StripeSession;
  attach_error : option string            (* orderModel.findByIdAndUpdate *)
}.

Record VerifyRequest : Type := mkVerifyRequest {
  verify_orderId : value;
  verify_success : value
}.

Record StatusRequest : Type := mkStatusRequest {
  status_orderId : value;
  status_status : value
}.

Record WebhookRequest : Type := mkWebhookRequest {
  stripe_signature : option string;       (* req.headers['stripe-signature'] *)
  webhook_body : Event                    (* req.body *)
}.

(** [constructEvent] is the outcome of
    [stripe.webhooks.constructEvent(req.body, sig, webhookSecret)] on this
    delivery: it throws [Error(msg)] or returns the verified event. *)
Record WebhookEnv : Type := mkWebhookEnv {
  webhook_env : ProcessEnv;
  constructEvent : string + Event;
  findOne_error : bool;
  update_error : bool
}.

(** [verifyOrder] and [updateStatus] await one database call. *)
Record UpdateEnv : Type := mkUpdateEnv {
  db_error : bool
}.

(** ** Exceptions *)

Inductive result (A : Type) : Type :=
| Ok (a : A)
| Throw (msg : string).

Arguments Ok {A} a.
Arguments Throw {A} msg.

(** [l.map(f)] for a callback that may throw: elements are visited from the
    left and the first exception leaves the loop. *)
Fixpoint map_result {A B : Type} (f : A -> result B) (l : list A)
    : result (list B) :=
  match l with
  | [] => Ok []
  | a :: rest =>
      match f a with
      | Throw msg => Throw msg
      | Ok b =>
          match map_result f rest with
          | Throw msg => Throw msg
          | Ok bs => Ok (b :: bs)
          end
      end
  end.

(** ** An instance of the built-in conversions, for closed examples *)

Fixpoint digits_value (s : string) (acc : Z) : option Z :=
  match s with
  | EmptyString => Some acc
  | String c rest =>
      let n := Z.of_nat (Ascii.nat_of_ascii c) in
      if ((48 <=? n) && (n <=? 57))%Z
      then digits_value rest (10 * acc + (n - 48))%Z
      else None
  end.

(** Agrees with ECMAScript's StringToNumber on the empty string and on
    strings of at most 15 decimal digits; every other string is answered
    with NaN here. *)
Definition digits_StringToNumber (s : string) : float :=
  match digits_value s 0 with
  | Some z =>
      if (z <? 10 ^ 15)%Z then PrimFloat.of_uint63 (Uint63.of_Z z) else nan
  | None => nan
  end.

(** Agrees with ECMAScript's Number::toString on NaN, the zeros, the
    infinities and the integers of magnitude below 2^53; it is not applied
    to another number in the examples. *)
Definition integer_NumberToString (n : float) : string :=
  match Prim2SF n with
  | S754_zero _ => "0"
  | S754_infinity false => "Infinity"
  | S754_infinity true => "-Infinity"
  | S754_nan => "NaN"
  | S754_finite s m e =>
      let d := (2 ^ (- e))%Z in
      if ((e <=? 0) && (Z.pos m mod d =? 0))%Z
      then pretty (if s then (- (Z.pos m / d))%Z else (Z.pos m / d)%Z)
      else "NaN"
  end.

(** ** Queries *)

(** The filter [{ userId: v }] on a document field. *)
Definition value_eqb (a b : value) : bool :=
  match a, b with
  | VUndefined, VUndefined => true
  | VNull, VNull => true
  | VBool x, VBool y => Bool.eqb x y
  | VNum x, VNum y => PrimFloat.eqb x y
  | VStr x, VStr y => String.eqb x y
  | _, _ => false
  end.

(** [.sort({ createdAt: -1 })]: newest first; orders of the same instant
    keep the order of the collection. *)
Fixpoint insert_newest (o : Order) (sorted : list Order) : list Order :=
  match sorted with
  | [] => [o]
  | x :: rest =>
      if (createdAt x <=? createdAt o)%Z then o :: x :: rest
      else x :: insert_newest o rest
  end.

Definition sort_newest_first (os : list Order) : list Order :=
  fold_right insert_newest [] os.

Record UserOrdersRequest : Type := mkUserOrdersRequest {
  query_body_userId : value;              (* req.body.userId *)
  query_req_userId : value;               (* req.userId *)
  query_req_user : option AuthUser        (* req.user *)
}.

(** The one database call of a query. *)
Record QueryEnv : Type := mkQueryEnv {
  find_error : bool
}.

Inductive QueryBody : Type :=
| QData (data : list Order)                       (* {success: true, data} *)
| QMessage (success : bool) (message : string).

Record QueryResponse : Type := mkQueryResponse {
  query_statusCode : Z;
  query_body : QueryBody
}.

(** The user of [userOrders] (line 207), resolved as in [placeOrder]. *)
Definition query_userId (req : UserOrdersRequest) : value :=
  js_or (js_or (query_body_userId req) (query_req_userId req))
        (match query_req_user req with
         | None => VUndefined
         | Some u => js_or (user_id u) (user__id u)
         end).

(** [userOrders] (lines 205-216). *)
Definition userOrders (env : QueryEnv) (req : UserOrdersRequest) (w : World)
    : QueryResponse :=
  if negb (truthy (query_userId req))
  then {| query_statusCode := 401;
          query_body := QMessage false "Unauthorized" |}
  else if find_error env
  then {| query_statusCode := 500;
          query_body := QMessage false "Error fetching orders" |}
  else {| query_statusCode := 200;
          query_body :=
            QData (sort_newest_first
                     (List.filter
                        (fun o => value_eqb (userId o) (query_userId req))
                        (orders w))) |}.

(** [listOrders] (lines 222-230). *)
Definition listOrders (env : QueryEnv) (w : World) : QueryResponse :=
  if find_error env
  then {| query_statusCode := 500; query_body := QMessage false "Error" |}
  else {| query_statusCode := 200;
          query_body := QData (sort_newest_first (orders w)) |}.

(** ** Operations *)

(** A request to one of the four endpoints, with what its awaited calls
    answer. *)
Inductive Op : Type :=
| OpPlaceOrder (env : PlaceEnv) (req : PlaceRequest)
| OpVerifyOrder (env : UpdateEnv) (req : VerifyRequest)
| OpWebhook (env : WebhookEnv) (req : WebhookRequest)
| OpUpdateStatus (env : UpdateEnv) (req : StatusRequest).

(** ** Sample requests *)

Definition tea : RawItem :=
  {| raw_id := VStr "p1"; raw_name := VStr "Tea"; raw_price := VNum 100%float;
     raw_quantity := VNum 2%float; raw_image := VUndefined |}.

Definition bun : RawItem :=
  {| raw_id := VStr "p2"; raw_name := VStr "Bun"; raw_price := VNum 50%float;
     raw_quantity := VNum 1%float; raw_image := VStr "bun.png" |}.

(** An item with a negative price. *)
Definition refund : RawItem :=
  {| raw_id := VStr "p3"; raw_name := VStr "Refund";
     raw_price := VNum (-1)%float; raw_quantity := VNum 1%float;
     raw_image := VUndefined |}.

(** An item priced at an eighth of a rupee. *)
Definition sweet : RawItem :=
  {| raw_id := VStr "p4"; raw_name := VStr "Sweet";
     raw_price := VNum 0.125%float; raw_quantity := VNum 1%float;
     raw_image := VUndefined |}.

(** An item with a negative quantity. *)
Definition returned : RawItem :=
  {| raw_id := VStr "p5"; raw_name := VStr "Cake"; raw_price := VNum 10%float;
     raw_quantity := VNum (-2)%float; raw_image := VUndefined |}.

(** An item without a quantity. *)
Definition single : RawItem :=
  {| raw_id := VStr "p6"; raw_name := VStr "Roll"; raw_price := VNum 10%float;
     raw_quantity := VUndefined; raw_image := VUndefined |}.

Definition order_request (its : list RawItem) (method : value)
    : PlaceRequest :=
  {| body_userId := VStr "u1"; req_userId := VUndefined; req_user := None;
     body_items := Some its; body_amount := VNum 330%float;
     body_address := [("city", VStr "Surat")];
     body_paymentMethod := method |}.

Definition fee_env (fee : option string) : ProcessEnv :=
  {| FRONTEND_URL := None; DELIVERY_FEE := fee;
     STRIPE_WEBHOOK_SECRET := Some "whsec_1" |}.

(** Every awaited call of the request resolves; [cart] tells whether the
    cart update rejects. *)
Definition calm (fee : option string) (cart : bool) : PlaceEnv :=
  {| place_env := fee_env fee; new_id := "o1"; now := 1700000000000;
     save_error := None; cart_error := cart;
     sessions_create :=
       inr {| session_id := "cs_1";
              session_url := Some "https://checkout.example/cs_1" |};
     attach_error := None |}.

Definition shop : World :=
  {| orders := [];
     users := {[ "u1" := {| account := "asha";
                            cartData := {[ "p1" := 2%Z ]} |} ]};
     gateway := [] |}.

Definition completed_event (metadata_id : option string) : Event :=
  {| type := "checkout.session.completed";
     data_object := {| metadata := Some metadata_id; id := Some "cs_1" |} |}.

Definition delivery (e : Event) : WebhookRequest :=
  {| stripe_signature := Some "t=1,v1=abc"; webhook_body := e |}.

(** The signature check yields [checked]; [db] tells whether the database
    calls reject. *)
Definition hook_env (checked : string + Event) (db : bool) : WebhookEnv :=
  {| webhook_env := fee_env None; constructEvent := checked;
     findOne_error := db; update_error := db |}.

(** An order awaiting payment, with checkout session cs_1 attached. *)
Definition awaiting : Order :=
  {| _id := "o1"; userId := VStr "u1"; items := []; amount := VNum 330%float;
     address := []; payment := false; paymentMethod := VStr "stripe";
     status := VStr "awaiting_payment"; createdAt := 1700000000000;
     stripeSessionId := Some "cs_1" |}.

Definition shop_awaiting : World :=
  {| orders := [awaiting]; users := ∅; gateway := [] |}.

(** An order is placed, the webhook confirms it, the redirect verifies
    it. *)
Definition paying_ops : list Op :=
  [ OpPlaceOrder (calm (Some "80") false)
      (order_request [tea; bun] VUndefined);
    OpWebhook (hook_env (inr (completed_event (Some "o1"))) false)
      (delivery (completed_event (Some "o1")));
    OpVerifyOrder {| db_error := false |}
      {| verify_orderId := VStr "o1"; verify_success := VBool true |} ].

(** An order is placed and verified, then an admin marks it delivered. *)
Definition delivering_ops : list Op :=
  [ OpPlaceOrder (calm (Some "80") false)
      (order_request [tea; bun] VUndefined);
    OpVerifyOrder {| db_error := false |}
      {| verify_orderId := VStr "o1"; verify_success := VBool true |};
    OpUpdateStatus {| db_error := false |}
      {| status_orderId := VStr "o1"; status_status := VStr "delivered" |} ].

(** Agrees with StringToNumber on the strings [digits_StringToNumber]
    covers and on those preceded by a minus sign. *)
Definition signed_StringToNumber (s : string) : float :=
  if String.eqb s "-" then nan
  else if String.prefix "-" s
  then PrimFloat.opp
         (digits_StringToNumber
            (String.substring 1 (String.length s - 1) s))
  else digits_StringToNumber s.

(** The normalised [tea] and [bun]. *)
Definition tea_bun_items : list Item :=
  [ {| item_id := VStr "p1"; name := VStr "Tea"; price := 100%float;
       quantity := 2%float; image := None |};
    {| item_id := VStr "p2"; name := VStr "Bun"; price := 50%float;
       quantity := 1%float; image := Some (VStr "bun.png") |} ].

(** A request that carries no user id at all. *)
Definition anonymous_request : PlaceRequest :=
  {| body_userId := VUndefined; req_userId := VUndefined; req_user := None;
     body_items := Some [tea; bun]; body_amount := VNum 330%float;
     body_address := []; body_paymentMethod := VStr "cod" |}.

(** Like [calm], with the awaited calls answering as given. *)
Definition stormy (save : option string)
    (create : string + StripeSession) (attach : option string) : PlaceEnv :=
  {| place_env := fee_env (Some "80"); new_id := "o1"; now := 1700000000000;
     save_error := save; cart_error := false;
     sessions_create := create; attach_error := attach |}.

(** An older order of another user, paid and delivered. *)
Definition delivered : Order :=
  {| _id := "o0"; userId := VStr "u2"; items := tea_bun_items;
     amount := VNum 330%float; address := []; payment := true;
     paymentMethod := VStr "cod"; status := VStr "delivered";
     createdAt := 1600000000000; stripeSessionId := None |}.

Definition archive : World :=
  {| orders := [delivered; awaiting]; users := ∅; gateway := [] |}.

(** A shop with one earlier order, of another id than the next one. *)
Definition busy_shop : World :=
  {| orders := [delivered]; users := users shop; gateway := [] |}.

Definition orders_of (uid : value) : UserOrdersRequest :=
  {| query_body_userId := uid; query_req_userId := VUndefined;
     query_req_user := None |}.

(** A deployment without webhook secret; the signature check, were it
    made, would throw. *)
Definition unsigned_hook_env : WebhookEnv :=
  {| webhook_env := {| FRONTEND_URL := None; DELIVERY_FEE := None;
                       STRIPE_WEBHOOK_SECRET := None |};
     constructEvent := inl "No stripe-signature header value was provided";
     findOne_error := false; update_error := false |}.

Definition refund_event : Event :=
  {| type := "charge.refunded";
     data_object := {| metadata := Some (Some "o1"); id := Some "cs_1" |} |}.

(** ** The controller *)

Section Controller.

(** The two ECMAScript conversions the controller relies on and that are
    not written out here: StringToNumber (behind [Number(s)] on a string)
    and Number::toString (behind a number inside a template literal). *)
Variable StringToNumber : string -> float.
Variable NumberToString : float -> string.

(** [Number(v)]. *)
Definition Number (v : value) : float :=
  match v with
  | VUndefined => nan
  | VNull => 0%float
  | VBool true => 1%float
  | VBool false => 0%float
  | VNum n => n
  | VStr s => StringToNumber s
  end.

(** [`${v}`]. *)
Definition ToString (v : value) : string :=
  match v with
  | VUndefined => "undefined"
  | VNull => "null"
  | VBool true => "true"
  | VBool false => "false"
  | VNum n => NumberToString n
  | VStr s => s
  end.

(** [n || 1] on numbers. *)
Definition or_one (n : float) : float := if truthy_num n then n else 1%float.

(** [Number.isNaN(priceNum) || priceNum < 0]. *)
Definition invalid_price (priceNum : float) : bool :=
  PrimFloat.is_nan priceNum || PrimFloat.ltb priceNum 0%float.

(** The message of the error thrown for an item. *)
Definition invalid_price_message (it : RawItem) : string :=
  "Invalid price for item " ++ ToString (js_or (raw_name it) (raw_id it)).

(** The callback of [items.map] in [placeOrder] (lines 29-45). *)
Definition normalizeItem (it : RawItem) : result Item :=
  let priceNum := Number (raw_price it) in
  let quantityNum := or_one (Number (raw_quantity it)) in
  if invalid_price priceNum
  then Throw (invalid_price_message it)
  else Ok {| item_id := raw_id it;
             name := raw_name it;
             price := priceNum;
             quantity := quantityNum;
             image := if truthy (raw_image it)
                      then Some (raw_image it) else None |}.

Definition normalizedItems (its : list RawItem) : result (list Item) :=
  map_result normalizeItem its.

(** The callback of [normalizedItems.map] (lines 75-82). *)
Definition line_item_of (item : Item) : LineItem :=
  {| currency := "lkr";
     product_name := js_or (name item) (VStr "Item");
     unit_amount := Math_round (PrimFloat.mul (price item) 100%float);
     li_quantity := quantity item |}.

(** [Number(process.env.DELIVERY_FEE)]: an unset variable is undefined. *)
Definition configured_fee (pe : ProcessEnv) : float :=
  match DELIVERY_FEE pe with
  | None => Number VUndefined
  | Some s => Number (VStr s)
  end.

(** [const DELIVERY_FEE = Number(process.env.DELIVERY_FEE) || 80]. *)
Definition delivery_fee (pe : ProcessEnv) : float :=
  if truthy_num (configured_fee pe) then configured_fee pe else 80%float.

Definition delivery_line (fee : float) : LineItem :=
  {| currency := "lkr";
     product_name := VStr "Delivery Charges";
     unit_amount := Math_round (PrimFloat.mul fee 100%float);
     li_quantity := 1%float |}.

(** Lines 86-95: the delivery line is pushed when the fee is positive. *)
Definition delivery_lines (pe : ProcessEnv) : list LineItem :=
  if PrimFloat.ltb 0%float (delivery_fee pe)
  then [delivery_line (delivery_fee pe)]
  else [].

Definition build_line_items (pe : ProcessEnv) (its : list Item)
    : list LineItem :=
  map line_item_of its ++ delivery_lines pe.

(** [process.env.FRONTEND_URL || 'http://localhost:5173']. *)
Definition frontend_url (pe : ProcessEnv) : string :=
  match FRONTEND_URL pe with
  | Some u => if truthy_str u then u else "http://localhost:5173"
  | None => "http://localhost:5173"
  end.

(** [req.body.userId || req.userId
     || (req.user && (req.user.id || req.user._id))]. *)
Definition resolve_userId (req : PlaceRequest) : value :=
  js_or (js_or (body_userId req) (req_userId req))
        (match req_user req with
         | None => VUndefined
         | Some u => js_or (user_id u) (user__id u)
         end).

(** The destructuring default [paymentMethod = 'stripe'] applies to an
    absent (undefined) field only. *)
Definition effective_paymentMethod (req : PlaceRequest) : value :=
  match body_paymentMethod req with
  | VUndefined => VStr "stripe"
  | v => v
  end.

(** The [catch] of [placeOrder] (lines 118-121). *)
Definition placeOrder_catch (msg : string) : Response :=
  respond 500
    (BMessage false (if truthy_str msg then msg else "Internal Server Error")).

(** The document of [new orderModel({...})] (lines 48-57). *)
Definition newOrder (env : PlaceEnv) (req : PlaceRequest) (its : list Item)
    : Order :=
  {| _id := new_id env;
     userId := resolve_userId req;
     items := its;
     amount := body_amount req;
     address := body_address req;
     payment := false;
     paymentMethod := effective_paymentMethod req;
     status := if is_str (effective_paymentMethod req) "stripe"
               then VStr "awaiting_payment" else VStr "pending";
     createdAt := now env;
     stripeSessionId := None |}.

Definition checkout_request (env : PlaceEnv) (o : Order) : CheckoutRequest :=
  {| line_items := build_line_items (place_env env) (items o);
     success_url := frontend_url (place_env env)
                    ++ "/verify?success=true&orderId=" ++ _id o;
     cancel_url := frontend_url (place_env env)
                   ++ "/verify?success=false&orderId=" ++ _id o;
     metadata_orderId := _id o |}.

(** Lines 61-117 of [placeOrder]: what follows the resolved
    [newOrder.save()]. *)
Definition placeOrder_saved (env : PlaceEnv) (req : PlaceRequest)
    (order : Order) (w : World) : Response * World :=
  let w1 := with_orders w (orders w ++ [order]) in
  let w2 := if cart_error env then w1
            else with_users w1 (clearCart (resolve_userId req) (users w1)) in
  if is_str (paymentMethod order) "cod" || is_str (paymentMethod order) "none"
  then (respond 201
          (BOrder order "Order placed (no online payment required)."),
        w2)
  else
    let w3 := with_gateway w2 (gateway w2 ++ [checkout_request env order]) in
    match sessions_create env with
    | inl msg => (placeOrder_catch msg, w3)
    | inr session =>
      match attach_error env with
      | Some msg => (placeOrder_catch msg, w3)
      | None =>
        let w4 := with_orders w3
                    (findByIdAndUpdate (_id order)
                       (set_stripeSessionId (session_id session))
                       (orders w3)) in
        match session_url session with
        | Some url =>
            if truthy_str url
            then (respond 200 (BSession url), w4)
            else (respond 500
                    (BMessage false
                       "Failed to create Stripe checkout session"),
                  w4)
        | None =>
            (respond 500
               (BMessage false "Failed to create Stripe checkout session"),
             w4)
        end
      end
    end.

(** [placeOrder] (lines 14-122). *)
Definition placeOrder (env : PlaceEnv) (req : PlaceRequest) (w : World)
    : Response * World :=
  if negb (truthy (resolve_userId req))
  then (respond 401 (BMessage false "Unauthorized: userId missing"), w)
  else
    match body_items req with
    | None | Some [] => (respond 400 (BMessage false "Cart is empty"), w)
    | Some its =>
      match normalizedItems its with
      | Throw msg => (placeOrder_catch msg, w)
      | Ok nits =>
        match save_error env with
        | Some msg => (placeOrder_catch msg, w)
        | None => placeOrder_saved env req (newOrder env req nits) w
        end
      end
    end.

(** [success === 'true' || success === true]. *)
Definition success_is_true (success : value) : bool :=
  is_str success "true"
  || match success with VBool true => true | _ => false end.

(** [verifyOrder] (lines 130-147). *)
Definition verifyOrder (env : UpdateEnv) (req : VerifyRequest) (w : World)
    : Response * World :=
  if negb (truthy (verify_orderId req))
  then (respond 400 (BMessage false "orderId required"), w)
  else if success_is_true (verify_success req)
  then
    if db_error env then (respond 500 (BMessage false "Error"), w)
    else (json (BMessage true "Paid"),
          with_orders w
            (findByIdAndUpdate_value (verify_orderId req) set_paid (orders w)))
  else
    if db_error env then (respond 500 (BMessage false "Error"), w)
    else (json (BMessage false "Not Paid"),
          with_orders w
            (findByIdAndUpdate_value (verify_orderId req)
               (set_status (VStr "cancelled")) (orders w))).

(** [updateStatus] (lines 236-247). *)
Definition updateStatus (env : UpdateEnv) (req : StatusRequest) (w : World)
    : Response * World :=
  if negb (truthy (status_orderId req)) || negb (truthy (status_status req))
  then (respond 400 (BMessage false "orderId and status required"), w)
  else if db_error env then (respond 500 (BMessage false "Error"), w)
  else (json (BMessage true "Status Updated"),
        with_orders w
          (findByIdAndUpdate_value (status_orderId req)
             (set_status (status_status req)) (orders w))).

(** Lines 160-171: without a webhook secret the body is taken as the event;
    with one, the Stripe SDK verifies the signature. *)
Definition webhook_event (env : WebhookEnv) (req : WebhookRequest)
    : string + Event :=
  match STRIPE_WEBHOOK_SECRET (webhook_env env) with
  | None => inr (webhook_body req)
  | Some secret =>
      if truthy_str secret then constructEvent env
      else inr (webhook_body req)
  end.

(** [session.metadata && session.metadata.orderId], when it is truthy. *)
Definition session_orderId (s : EventSession) : option string :=
  match metadata s with
  | Some (Some oid) => if truthy_str oid then Some oid else None
  | _ => None
  end.

(** [session.id], when it is truthy. *)
Definition session_truthy_id (s : EventSession) : option string :=
  match id s with
  | Some sid => if truthy_str sid then Some sid else None
  | None => None
  end.

Definition acknowledge : Response := json BReceived.

(** [event.type === 'checkout.session.completed']. *)
Definition checkout_completed (event : Event) : bool :=
  String.eqb (type event) "checkout.session.completed".

(** [stripeWebhookHandler] (lines 156-199). *)
Definition stripeWebhookHandler (env : WebhookEnv) (req : WebhookRequest)
    (w : World) : Response * World :=
  match webhook_event env req with
  | inl msg => (respond 400 (BText ("Webhook Error: " ++ msg)), w)
  | inr event =>
    if checkout_completed event
    then
      let session := data_object event in
      match session_orderId session with
      | Some orderId =>
          if update_error env then (respond 500 BEmpty, w)
          else (acknowledge,
                with_orders w (findByIdAndUpdate orderId set_paid (orders w)))
      | None =>
          match session_truthy_id session with
          | Some sid =>
              if findOne_error env then (respond 500 BEmpty, w)
              else
                match findOne_bySession sid (orders w) with
                | Some order =>
                    if update_error env then (respond 500 BEmpty, w)
                    else (acknowledge,
                          with_orders w
                            (findByIdAndUpdate (_id order) set_paid
                               (orders w)))
                | None => (acknowledge, w)
                end
          | None => (acknowledge, w)
          end
      end
    else (acknowledge, w)
  end.

(** ** Sequences of requests *)

Definition step (w : World) (op : Op) : World :=
  match op with
  | OpPlaceOrder env req => snd (placeOrder env req w)
  | OpVerifyOrder env req => snd (verifyOrder env req w)
  | OpWebhook env req => snd (stripeWebhookHandler env req w)
  | OpUpdateStatus env req => snd (updateStatus env req w)
  end.

Definition run (w : World) (ops : list Op) : World := fold_left step ops w.

(** The invariant of the data model: a paid order is a confirmed one. *)
Definition paid_confirmed (o : Order) : Prop :=
  payment o = true -> status o = VStr "confirmed".

Definition invariant (w : World) : Prop := Forall paid_confirmed (orders w).


(** ** Vocabulary of the properties *)

(** The request passes the checks of lines 19-45: the user is resolved and
    the items are a non-empty array that normalises to [nits]. *)
Definition validated (req : PlaceRequest) (nits : list Item) : Prop :=
  truthy (resolve_userId req) = true
  /\ exists its, body_items req = Some its
                 /\ its <> []
                 /\ normalizedItems its = Ok nits.

(** The request asks for no online payment. *)
Definition offline_payment (req : PlaceRequest) : bool :=
  is_str (body_paymentMethod req) "cod"
  || is_str (body_paymentMethod req) "none".

Definition set_cart_error (b : bool) (env : PlaceEnv) : PlaceEnv :=
  {| place_env := place_env env; new_id := new_id env; now := now env;
     save_error := save_error env; cart_error := b;
     sessions_create := sessions_create env;
     attach_error := attach_error env |}.

(** What the gateway is asked to charge for a line. *)
Definition amount_qty (li : LineItem) : float * float :=
  (unit_amount li, li_quantity li).

(** The configured delivery fee is unset, is not a number, or is zero. *)
Definition fee_unset_or_zero (pe : ProcessEnv) : Prop :=
  DELIVERY_FEE pe = None
  \/ PrimFloat.is_nan (configured_fee pe) = true
  \/ PrimFloat.eqb (configured_fee pe) 0%float = true.

(** The line items in the words of the specification: one per normalised
    item, charging the price times 100, and one more for the delivery,
    charging the fee times 100 once, when the configured fee is positive. *)
Definition specified_line_items (pe : ProcessEnv) (nits : list Item)
    : list (float * float) :=
  map (fun it => (PrimFloat.mul (price it) 100%float, quantity it)) nits
  ++ (if PrimFloat.ltb 0%float (configured_fee pe)
      then [(PrimFloat.mul (configured_fee pe) 100%float, 1%float)]
      else []).

(** Some database call that the handler awaits for this event rejects.
    An event that is not a completed checkout, or that carries neither an
    order id nor a session id, reaches no database call. *)
Definition database_call_fails (env : WebhookEnv) (event : Event) (w : World)
    : bool :=
  checkout_completed event
  && match session_orderId (data_object event) with
     | Some _ => update_error env
     | None =>
         match session_truthy_id (data_object event) with
         | Some sid =>
             findOne_error env
             || match findOne_bySession sid (orders w) with
                | Some _ => update_error env
                | None => false
                end
         | None => false
         end
     end.

(** The order a completed-checkout event designates: the one with the id
    of the metadata, else the first one with the session id. *)
Definition matching_order (event : Event) (w : World) : option Order :=
  match session_orderId (data_object event) with
  | Some orderId => List.find (fun o => String.eqb (_id o) orderId) (orders w)
  | None =>
      match session_truthy_id (data_object event) with
      | Some sid => findOne_bySession sid (orders w)
      | None => None
      end
  end.

(** The operations that set the payment fields together: every
    [placeOrder] and webhook delivery, and [verifyOrder] with a true
    success value. *)
Definition payment_path (op : Op) : Prop :=
  match op with
  | OpPlaceOrder _ _ => True
  | OpWebhook _ _ => True
  | OpVerifyOrder _ req => success_is_true (verify_success req) = true
  | OpUpdateStatus _ _ => False
  end.

(** What the handlers never write once an order is created. *)
Definition created_fields (o : Order)
    : string * value * list Item * value * Address * value * Z :=
  (_id o, userId o, items o, amount o, address o, paymentMethod o,
   createdAt o).

(** [o'] is a later state of the order [o]: the created fields are the
    same and a payment, once recorded, stays recorded. *)
Definition evolves (o o' : Order) : Prop :=
  created_fields o' = created_fields o
  /\ (payment o = true -> payment o' = true).

(** The orders of [w'] are later states of those of [w], order for
    order, followed by new ones. *)
Definition extends (w w' : World) : Prop :=
  exists kept added,
    orders w' = kept ++ added /\ Forall2 evolves (orders w) kept.

(** What the normalisation guarantees of a stored item: the price is a
    number that is not negative, the quantity a number that is not zero. *)
Definition valid_item (it : Item) : Prop :=
  invalid_price (price it) = false /\ truthy_num (quantity it) = true.

(** The normalised item of a raw item. *)
Definition normalizes_to (it : RawItem) (item : Item) : Prop :=
  item_id item = raw_id it
  /\ name item = raw_name it
  /\ price item = Number (raw_price it)
  /\ quantity item = or_one (Number (raw_quantity it))
  /\ image item = (if truthy (raw_image it) then Some (raw_image it)
                   else None).

Definition items_validated (w : World) : Prop :=
  Forall (fun o => Forall valid_item (items o)) (orders w).

(** The newest-first order of a listing. *)
Definition newest_first (os : list Order) : Prop :=
  StronglySorted (fun a b => (createdAt b <= createdAt a)%Z) os.

(** ** Validation of items *)

Lemma truthy_str_app_literal (s : string) :
  truthy_str ("Invalid price for item " ++ s) = true.
Proof. reflexivity. Qed.

Lemma normalizeItem_invalid (it : RawItem) :
  invalid_price (Number (raw_price it)) = true ->
  normalizeItem it = Throw (invalid_price_message it).
Proof. unfold normalizeItem. intros ->. reflexivity. Qed.

Lemma normalizeItem_valid (it : RawItem) :
  invalid_price (Number (raw_price it)) = false ->
  exists item, normalizeItem it = Ok item
               /\ price item = Number (raw_price it)
               /\ quantity item = or_one (Number (raw_quantity it)).
Proof. unfold normalizeItem. intros ->. eexists. repeat split. Qed.

(** How the check reads a price: an absent one is not a number and is
    refused, while null is the number 0 and passes. *)
Lemma invalid_price_undefined : invalid_price (Number VUndefined) = true.
Proof. reflexivity. Qed.

Lemma valid_price_null : invalid_price (Number VNull) = false.
Proof. reflexivity. Qed.

(** The first item with an invalid price stops the normalisation. *)
Lemma normalizedItems_invalid (its : list RawItem) :
  Exists (fun it => invalid_price (Number (raw_price it)) = true) its ->
  exists it, In it its
             /\ invalid_price (Number (raw_price it)) = true
             /\ normalizedItems its = Throw (invalid_price_message it).
Proof.
  induction its as [|a rest IH]; intros Hex.
  - inversion Hex.
  - destruct (invalid_price (Number (raw_price a))) eqn:Ha.
    + exists a. repeat split; [now left | assumption |].
      unfold normalizedItems. simpl.
      now rewrite (normalizeItem_invalid a Ha).
    + assert (Hrest : Exists
                (fun it => invalid_price (Number (raw_price it)) = true) rest).
      { inversion Hex as [x l Hx | x l Hl]; subst; [congruence | assumption]. }
      destruct (IH Hrest) as (it & Hin & Hbad & Hthrow).
      exists it. repeat split; [now right | assumption |].
      destruct (normalizeItem_valid a Ha) as (item & Hok & _).
      unfold normalizedItems in *. simpl. now rewrite Hok, Hthrow.
Qed.

(** C1: when some item of the list has a price that [Number] turns into
    NaN or into a negative number, [placeOrder] creates no order: the order
    collection, the user collection and the gateway are left as they were;
    and, the user being resolved, the answer is the failure of the
    handler's [catch] (status 500, [success: false]) whose message names
    an offending item. *)
Theorem placeOrder_invalid_price_rejected
    (env : PlaceEnv) (req : PlaceRequest) (w : World) (its : list RawItem) :
  body_items req = Some its ->
  Exists (fun it => invalid_price (Number (raw_price it)) = true) its ->
  snd (placeOrder env req w) = w
  /\ (truthy (resolve_userId req) = true ->
      exists it,
        In it its
        /\ invalid_price (Number (raw_price it)) = true
        /\ fst (placeOrder env req w)
           = respond 500 (BMessage false (invalid_price_message it))).
Proof.
  intros Hitems Hex.
  destruct (normalizedItems_invalid its Hex) as (it & Hin & Hbad & Hthrow).
  assert (Hrun : truthy (resolve_userId req) = true ->
                 placeOrder env req w
                 = (respond 500 (BMessage false (invalid_price_message it)),
                    w)).
  { intros Huid. unfold placeOrder. rewrite Huid, Hitems. simpl.
    destruct its as [|a rest]; [inversion Hex|].
    rewrite Hthrow. unfold placeOrder_catch, invalid_price_message.
    now rewrite truthy_str_app_literal. }
  split.
  - destruct (truthy (resolve_userId req)) eqn:Huid.
    + now rewrite Hrun.
    + unfold placeOrder. now rewrite Huid.
  - intros Huid. exists it. rewrite (Hrun Huid). now repeat split.
Qed.

(** ** [placeOrder] after the order is saved *)

Lemma is_str_eq (v : value) (lit : string) :
  is_str v lit = true -> v = VStr lit.
Proof.
  destruct v; simpl; try discriminate.
  intros H. apply String.eqb_eq in H. now subst.
Qed.

Lemma offline_payment_effective (req : PlaceRequest) :
  offline_payment req = true ->
  effective_paymentMethod req = body_paymentMethod req
  /\ is_str (effective_paymentMethod req) "stripe" = false.
Proof.
  unfold offline_payment, effective_paymentMethod. intros H.
  apply orb_true_iff in H as [H | H]; apply is_str_eq in H; rewrite H;
    split; reflexivity.
Qed.

Lemma placeOrder_validated (env : PlaceEnv) (req : PlaceRequest) (w : World)
    (nits : list Item) :
  validated req nits ->
  save_error env = None ->
  placeOrder env req w = placeOrder_saved env req (newOrder env req nits) w.
Proof.
  intros (Huid & its & Hitems & Hne & Hnorm) Hsave.
  unfold placeOrder. rewrite Huid, Hitems. simpl.
  destruct its as [|a rest]; [congruence|].
  now rewrite Hnorm, Hsave.
Qed.

Lemma findByIdAndUpdate_ids (key : string) (patch : Order -> Order)
    (os : list Order) :
  (forall o, _id (patch o) = _id o) ->
  map _id (findByIdAndUpdate key patch os) = map _id os.
Proof.
  intros Hid. induction os as [|o rest IH]; simpl; [reflexivity|].
  destruct (String.eqb (_id o) key); simpl; [now rewrite Hid | now rewrite IH].
Qed.

Lemma placeOrder_saved_users (env : PlaceEnv) (req : PlaceRequest)
    (order : Order) (w : World) :
  users (snd (placeOrder_saved env req order w))
  = if cart_error env then users w
    else clearCart (resolve_userId req) (users w).
Proof.
  unfold placeOrder_saved.
  destruct (is_str (paymentMethod order) "cod"
            || is_str (paymentMethod order) "none");
    [destruct (cart_error env); reflexivity|].
  destruct (sessions_create env) as [msg | session];
    [destruct (cart_error env); reflexivity|].
  destruct (attach_error env); [destruct (cart_error env); reflexivity|].
  destruct (session_url session) as [url|];
    [destruct (truthy_str url)|]; destruct (cart_error env); reflexivity.
Qed.

Lemma placeOrder_saved_ids (env : PlaceEnv) (req : PlaceRequest)
    (order : Order) (w : World) :
  map _id (orders (snd (placeOrder_saved env req order w)))
  = map _id (orders w) ++ [_id order].
Proof.
  assert (Hpatch : forall sid os,
            map _id (findByIdAndUpdate (_id order)
                       (set_stripeSessionId sid) os) = map _id os).
  { intros. now apply findByIdAndUpdate_ids. }
  unfold placeOrder_saved.
  destruct (is_str (paymentMethod order) "cod"
            || is_str (paymentMethod order) "none");
    [destruct (cart_error env); simpl; now rewrite map_app|].
  destruct (sessions_create env) as [msg | session];
    [destruct (cart_error env); simpl; now rewrite map_app|].
  destruct (attach_error env);
    [destruct (cart_error env); simpl; now rewrite map_app|].
  destruct (session_url session) as [url|];
    [destruct (truthy_str url)|]; destruct (cart_error env); simpl;
    now rewrite Hpatch, map_app.
Qed.

(** The cart step decides nothing but the user collection. *)
Lemma placeOrder_saved_cart_error (env : PlaceEnv) (req : PlaceRequest)
    (order : Order) (w : World) (b : bool) :
  fst (placeOrder_saved (set_cart_error b env) req order w)
  = fst (placeOrder_saved env req order w)
  /\ orders (snd (placeOrder_saved (set_cart_error b env) req order w))
     = orders (snd (placeOrder_saved env req order w))
  /\ gateway (snd (placeOrder_saved (set_cart_error b env) req order w))
     = gateway (snd (placeOrder_saved env req order w)).
Proof.
  unfold placeOrder_saved, set_cart_error, checkout_request. simpl.
  destruct (is_str (paymentMethod order) "cod"
            || is_str (paymentMethod order) "none");
    [destruct b, (cart_error env); repeat split; reflexivity|].
  destruct (sessions_create env) as [msg | session];
    [destruct b, (cart_error env); repeat split; reflexivity|].
  destruct (attach_error env);
    [destruct b, (cart_error env); repeat split; reflexivity|].
  destruct (session_url session) as [url|];
    [destruct (truthy_str url)|]; destruct b, (cart_error env);
    repeat split; reflexivity.
Qed.

Lemma placeOrder_saved_offline (env : PlaceEnv) (req : PlaceRequest)
    (order : Order) (w : World) :
  is_str (paymentMethod order) "cod" || is_str (paymentMethod order) "none"
  = true ->
  fst (placeOrder_saved env req order w)
  = respond 201 (BOrder order "Order placed (no online payment required).")
  /\ orders (snd (placeOrder_saved env req order w)) = orders w ++ [order]
  /\ gateway (snd (placeOrder_saved env req order w)) = gateway w.
Proof.
  unfold placeOrder_saved. intros ->.
  destruct (cart_error env); repeat split; reflexivity.
Qed.

(** C7: a [placeOrder] call with [paymentMethod] 'cod' or 'none' never
    reaches the payment gateway (no checkout session is requested, whatever
    the outcome of the call); when the request passes validation and the
    order is saved, the answer is the 201 success carrying the created
    order, which is unpaid, has no session attached and has status
    'pending', and that order is appended to the collection. *)
Theorem placeOrder_offline_no_gateway
    (env : PlaceEnv) (req : PlaceRequest) (w : World) :
  offline_payment req = true ->
  gateway (snd (placeOrder env req w)) = gateway w
  /\ forall nits,
       validated req nits ->
       save_error env = None ->
       exists order,
         fst (placeOrder env req w)
         = respond 201
             (BOrder order "Order placed (no online payment required).")
         /\ status order = VStr "pending"
         /\ payment order = false
         /\ stripeSessionId order = None
         /\ orders (snd (placeOrder env req w)) = orders w ++ [order].
Proof.
  intros Hoff.
  destruct (offline_payment_effective req Hoff) as [Heff Hstripe].
  assert (Hcod : forall nits,
            is_str (paymentMethod (newOrder env req nits)) "cod"
            || is_str (paymentMethod (newOrder env req nits)) "none" = true).
  { intros nits. simpl. now rewrite Heff. }
  split.
  - unfold placeOrder.
    destruct (negb (truthy (resolve_userId req))); [reflexivity|].
    destruct (body_items req) as [[|a rest]|]; try reflexivity.
    destruct (normalizedItems (a :: rest)) as [nits | msg]; [|reflexivity].
    destruct (save_error env); [reflexivity|].
    now destruct (placeOrder_saved_offline env req _ w (Hcod nits))
      as (_ & _ & ->).
  - intros nits Hval Hsave.
    rewrite (placeOrder_validated env req w nits Hval Hsave).
    destruct (placeOrder_saved_offline env req _ w (Hcod nits))
      as (Hr & Ho & _).
    exists (newOrder env req nits). rewrite Hr, Ho. simpl.
    now rewrite Hstripe.
Qed.

(** C9: once [placeOrder] has saved the order, and whatever the payment
    method and the answers of the gateway, (1) when the cart update goes
    through, the user collection is the old one with the cart of the
    resolved user set to the empty mapping; (2) when the cart update
    rejects, the response, the order collection and the gateway requests
    are those of the same call with a cart update that went through, the
    order collection holds one more order (the created one, under its id),
    and the user collection is untouched. *)
Theorem placeOrder_cart_cleared_best_effort
    (env : PlaceEnv) (req : PlaceRequest) (w : World) (nits : list Item) :
  validated req nits ->
  save_error env = None ->
  (cart_error env = false ->
     users (snd (placeOrder env req w))
     = clearCart (resolve_userId req) (users w)
     /\ forall (uid : string) (u : User),
          resolve_userId req = VStr uid ->
          users w !! uid = Some u ->
          cartData <$> (users (snd (placeOrder env req w)) !! uid) = Some ∅)
  /\ (cart_error env = true ->
        fst (placeOrder env req w)
        = fst (placeOrder (set_cart_error false env) req w)
        /\ orders (snd (placeOrder env req w))
           = orders (snd (placeOrder (set_cart_error false env) req w))
        /\ gateway (snd (placeOrder env req w))
           = gateway (snd (placeOrder (set_cart_error false env) req w))
        /\ map _id (orders (snd (placeOrder env req w)))
           = map _id (orders w) ++ [new_id env]
        /\ users (snd (placeOrder env req w)) = users w).
Proof.
  intros Hval Hsave.
  rewrite (placeOrder_validated env req w nits Hval Hsave).
  split.
  - intros Hcart. rewrite placeOrder_saved_users, Hcart.
    split; [reflexivity|].
    intros uid u Huid Hu. rewrite Huid. unfold clearCart.
    rewrite lookup_alter_eq, Hu. reflexivity.
  - intros Hcart.
    rewrite (placeOrder_validated (set_cart_error false env) req w nits
               Hval Hsave).
    destruct (placeOrder_saved_cart_error env req
                (newOrder env req nits) w false) as (Hr & Ho & Hg).
    change (newOrder (set_cart_error false env) req nits)
      with (newOrder env req nits).
    rewrite Hr, Ho, Hg, placeOrder_saved_ids, placeOrder_saved_users, Hcart.
    repeat split; reflexivity.
Qed.

(** ** Line items of the checkout session *)

(** A positive number is truthy. *)
Lemma positive_truthy (f : float) :
  PrimFloat.ltb 0%float f = true -> truthy_num f = true.
Proof.
  unfold truthy_num, PrimFloat.is_nan.
  rewrite FloatAxioms.ltb_spec, !FloatAxioms.eqb_spec.
  unfold SFltb, SFeqb.
  replace (Prim2SF 0%float) with (S754_zero false) by reflexivity.
  destruct (Prim2SF f) as [s | s | | s m e]; simpl; try discriminate.
  - destruct s; [discriminate | reflexivity].
  - destruct s; [discriminate|]. intros _.
    now rewrite Z.compare_refl, Pos.compare_cont_refl.
Qed.

Lemma delivery_lines_positive (pe : ProcessEnv) :
  PrimFloat.ltb 0%float (configured_fee pe) = true ->
  delivery_lines pe = [delivery_line (configured_fee pe)].
Proof.
  intros Hpos. unfold delivery_lines, delivery_fee.
  now rewrite (positive_truthy _ Hpos), Hpos.
Qed.

Lemma delivery_lines_fallback (pe : ProcessEnv) :
  fee_unset_or_zero pe ->
  delivery_lines pe = [delivery_line 80%float].
Proof.
  intros Hfee.
  assert (Hfalsy : truthy_num (configured_fee pe) = false).
  { unfold truthy_num. destruct Hfee as [Hunset | [Hnan | Hzero]].
    - unfold configured_fee. now rewrite Hunset.
    - now rewrite Hnan.
    - rewrite Hzero. now rewrite orb_true_r. }
  unfold delivery_lines, delivery_fee. now rewrite Hfalsy.
Qed.

Lemma offline_payment_order (env : PlaceEnv) (req : PlaceRequest)
    (nits : list Item) :
  is_str (paymentMethod (newOrder env req nits)) "cod"
  || is_str (paymentMethod (newOrder env req nits)) "none"
  = offline_payment req.
Proof.
  unfold offline_payment, effective_paymentMethod. simpl.
  unfold effective_paymentMethod.
  now destruct (body_paymentMethod req).
Qed.

Lemma placeOrder_saved_online (env : PlaceEnv) (req : PlaceRequest)
    (order : Order) (w : World) :
  is_str (paymentMethod order) "cod" || is_str (paymentMethod order) "none"
  = false ->
  gateway (snd (placeOrder_saved env req order w))
  = gateway w ++ [checkout_request env order].
Proof.
  unfold placeOrder_saved. intros ->.
  destruct (sessions_create env) as [msg | session];
    [destruct (cart_error env); reflexivity|].
  destruct (attach_error env); [destruct (cart_error env); reflexivity|].
  destruct (session_url session) as [url|];
    [destruct (truthy_str url)|]; destruct (cart_error env); reflexivity.
Qed.

(** Only a validated, saved, online request is answered with a session. *)
Lemma placeOrder_session_inv (env : PlaceEnv) (req : PlaceRequest)
    (w w' : World) (url : string) :
  placeOrder env req w = (respond 200 (BSession url), w') ->
  exists nits,
    validated req nits
    /\ save_error env = None
    /\ offline_payment req = false.
Proof.
  unfold placeOrder, validated.
  destruct (truthy (resolve_userId req)); simpl; [|discriminate].
  destruct (body_items req) as [[|a rest]|]; try discriminate.
  destruct (normalizedItems (a :: rest)) as [nits | msg] eqn:Hnorm;
    [|discriminate].
  destruct (save_error env); [discriminate|].
  intros Hrun. exists nits.
  split; [split; [reflexivity | exists (a :: rest); now repeat split]|].
  split; [reflexivity|].
  rewrite <- (offline_payment_order env req nits).
  destruct (is_str (paymentMethod (newOrder env req nits)) "cod"
            || is_str (paymentMethod (newOrder env req nits)) "none")
    eqn:Hoff; [|reflexivity].
  destruct (placeOrder_saved_offline env req _ w Hoff) as (Hr & _).
  rewrite Hrun in Hr. discriminate.
Qed.

(** C3 (as amended): for a [placeOrder] call answered with a checkout
    session, exactly one session was requested from the gateway; its line
    items are one per normalised item, in order, each charging
    [Math.round(price * 100)] for the item's quantity, followed by the
    delivery lines; and when the configured delivery fee is a number
    greater than 0, the delivery lines are the single line charging
    [Math.round(fee * 100)] once. *)
Theorem placeOrder_stripe_line_items
    (env : PlaceEnv) (req : PlaceRequest) (w w' : World) (url : string) :
  placeOrder env req w = (respond 200 (BSession url), w') ->
  exists nits rq,
    validated req nits
    /\ gateway w' = gateway w ++ [rq]
    /\ line_items rq
       = map line_item_of nits ++ delivery_lines (place_env env)
    /\ map amount_qty (map line_item_of nits)
       = map (fun it => (Math_round (PrimFloat.mul (price it) 100%float),
                         quantity it)) nits
    /\ (PrimFloat.ltb 0%float (configured_fee (place_env env)) = true ->
        map amount_qty (delivery_lines (place_env env))
        = [(Math_round
              (PrimFloat.mul (configured_fee (place_env env)) 100%float),
            1%float)]).
Proof.
  intros Hrun.
  destruct (placeOrder_session_inv env req w w' url Hrun)
    as (nits & Hval & Hsave & Hon).
  exists nits, (checkout_request env (newOrder env req nits)).
  split; [assumption|].
  assert (Hw' : w' = snd (placeOrder env req w)) by now rewrite Hrun.
  rewrite Hw', (placeOrder_validated env req w nits Hval Hsave).
  rewrite <- (offline_payment_order env req nits) in Hon.
  rewrite (placeOrder_saved_online env req _ w Hon).
  repeat split.
  - now rewrite map_map.
  - intros Hpos. now rewrite (delivery_lines_positive _ Hpos).
Qed.

(** C10: on the Stripe path of [placeOrder] (validated request, saved
    order, payment method neither 'cod' nor 'none'), when the configured
    delivery fee is unset, is not a number or is 0, the session requested
    from the gateway still ends with a delivery line, charging 8000 once:
    the fee falls back to 80. *)
Theorem placeOrder_zero_fee_still_charged
    (env : PlaceEnv) (req : PlaceRequest) (w : World) (nits : list Item) :
  validated req nits ->
  save_error env = None ->
  offline_payment req = false ->
  fee_unset_or_zero (place_env env) ->
  exists rq,
    gateway (snd (placeOrder env req w)) = gateway w ++ [rq]
    /\ line_items rq
       = map line_item_of nits
         ++ [ {| currency := "lkr";
                 product_name := VStr "Delivery Charges";
                 unit_amount := 8000%float;
                 li_quantity := 1%float |} ].
Proof.
  intros Hval Hsave Hon Hfee.
  exists (checkout_request env (newOrder env req nits)).
  rewrite (placeOrder_validated env req w nits Hval Hsave).
  rewrite <- (offline_payment_order env req nits) in Hon.
  rewrite (placeOrder_saved_online env req _ w Hon).
  split; [reflexivity|].
  simpl. unfold build_line_items.
  now rewrite (delivery_lines_fallback _ Hfee).
Qed.

(** ** Updates by id *)

Lemma findByIdAndUpdate_split (key : string) (patch : Order -> Order)
    (pre post : list Order) (o : Order) :
  Forall (fun x => _id x <> key) pre ->
  _id o = key ->
  findByIdAndUpdate key patch (pre ++ o :: post) = pre ++ patch o :: post.
Proof.
  intros Hpre Ho. induction Hpre as [|x pre Hx _ IH]; simpl.
  - apply String.eqb_eq in Ho. now rewrite Ho.
  - apply String.eqb_neq in Hx. now rewrite Hx, IH.
Qed.

Lemma findByIdAndUpdate_absent (key : string) (patch : Order -> Order)
    (os : list Order) :
  List.find (fun o => String.eqb (_id o) key) os = None ->
  findByIdAndUpdate key patch os = os.
Proof.
  induction os as [|o rest IH]; simpl; [reflexivity|].
  destruct (String.eqb (_id o) key); [discriminate|].
  intros H. now rewrite IH.
Qed.

Lemma findByIdAndUpdate_idempotent (key : string) (patch : Order -> Order)
    (os : list Order) :
  (forall o, _id (patch o) = _id o) ->
  (forall o, patch (patch o) = patch o) ->
  findByIdAndUpdate key patch (findByIdAndUpdate key patch os)
  = findByIdAndUpdate key patch os.
Proof.
  intros Hid Hidem. induction os as [|o rest IH]; simpl; [reflexivity|].
  destruct (String.eqb (_id o) key) eqn:Ho; simpl.
  - now rewrite Hid, Ho, Hidem.
  - now rewrite Ho, IH.
Qed.

Lemma findByIdAndUpdate_Forall (P : Order -> Prop) (key : string)
    (patch : Order -> Order) (os : list Order) :
  (forall o, P o -> P (patch o)) ->
  Forall P os ->
  Forall P (findByIdAndUpdate key patch os).
Proof.
  intros Hpatch Hos. induction Hos as [|o rest Ho Hrest IH]; simpl.
  - constructor.
  - destruct (String.eqb (_id o) key); constructor; auto.
Qed.

(** A patch that keeps ids and session ids does not change which order
    [findOne] designates. *)
Lemma findOne_bySession_update (sid key : string) (patch : Order -> Order)
    (os : list Order) :
  (forall o, _id (patch o) = _id o) ->
  (forall o, stripeSessionId (patch o) = stripeSessionId o) ->
  option_map _id (findOne_bySession sid (findByIdAndUpdate key patch os))
  = option_map _id (findOne_bySession sid os).
Proof.
  intros Hid Hsid. induction os as [|o rest IH]; simpl; [reflexivity|].
  destruct (String.eqb (_id o) key); simpl.
  - rewrite Hsid. destruct (stripeSessionId o) as [s|]; [|reflexivity].
    destruct (String.eqb s sid); simpl; [now rewrite Hid | reflexivity].
  - destruct (stripeSessionId o) as [s|]; [|assumption].
    destruct (String.eqb s sid); [reflexivity | assumption].
Qed.

(** ** [verifyOrder] *)

(** C6: [verifyOrder] (1) without an order id answers 400 'orderId
    required' and leaves every store as it was; (2) with a success value
    'true' or true answers 'Paid' and the order of that id becomes paid and
    'confirmed'; (3) with any other success value answers 'Not Paid', the
    order of that id gets status 'cancelled' and keeps its place in the
    collection, which holds the same orders (ids) as before. *)
Theorem verifyOrder_outcomes
    (env : UpdateEnv) (req : VerifyRequest) (w : World) :
  (truthy (verify_orderId req) = false ->
     verifyOrder env req w
     = (respond 400 (BMessage false "orderId required"), w))
  /\ (truthy (verify_orderId req) = true ->
      db_error env = false ->
      success_is_true (verify_success req) = true ->
      fst (verifyOrder env req w) = json (BMessage true "Paid")
      /\ forall key pre o post,
           verify_orderId req = VStr key ->
           orders w = pre ++ o :: post ->
           Forall (fun x => _id x <> key) pre ->
           _id o = key ->
           exists o',
             orders (snd (verifyOrder env req w)) = pre ++ o' :: post
             /\ _id o' = key
             /\ payment o' = true
             /\ status o' = VStr "confirmed")
  /\ (truthy (verify_orderId req) = true ->
      db_error env = false ->
      success_is_true (verify_success req) = false ->
      fst (verifyOrder env req w) = json (BMessage false "Not Paid")
      /\ map _id (orders (snd (verifyOrder env req w))) = map _id (orders w)
      /\ forall key pre o post,
           verify_orderId req = VStr key ->
           orders w = pre ++ o :: post ->
           Forall (fun x => _id x <> key) pre ->
           _id o = key ->
           exists o',
             orders (snd (verifyOrder env req w)) = pre ++ o' :: post
             /\ _id o' = key
             /\ payment o' = payment o
             /\ status o' = VStr "cancelled").
Proof.
  unfold verifyOrder. split; [|split].
  - now intros ->.
  - intros -> -> ->. simpl. split; [reflexivity|].
    intros key pre o post -> -> Hpre Ho. simpl.
    rewrite (findByIdAndUpdate_split key set_paid pre post o Hpre Ho).
    exists (set_paid o). now repeat split.
  - intros -> -> ->. simpl. split; [reflexivity|]. split.
    + destruct (verify_orderId req); try reflexivity.
      simpl. now apply findByIdAndUpdate_ids.
    + intros key pre o post -> -> Hpre Ho. simpl.
      rewrite (findByIdAndUpdate_split key _ pre post o Hpre Ho).
      exists (set_status (VStr "cancelled") o). now repeat split.
Qed.

(** ** [stripeWebhookHandler] *)

Lemma set_paid_id (o : Order) : _id (set_paid o) = _id o.
Proof. reflexivity. Qed.

Lemma set_paid_session (o : Order) :
  stripeSessionId (set_paid o) = stripeSessionId o.
Proof. reflexivity. Qed.

Lemma set_paid_idempotent (o : Order) : set_paid (set_paid o) = set_paid o.
Proof. reflexivity. Qed.

(** C4: the answer of the webhook handler to a delivery.  (1) When the
    signature check throws, the answer is the rejection 400 'Webhook
    Error: ...' and no store changes.  (2) When the check passes and a
    database call of the delivery rejects, the answer is the bare 500 (and
    no store changes).  (3) When the check passes and no database call
    rejects, the answer is the acknowledgement 200 [{received: true}]; in
    particular so when the event matches no order, and then no store
    changes. *)
Theorem stripeWebhookHandler_protocol
    (env : WebhookEnv) (req : WebhookRequest) (w : World) :
  (forall msg,
     webhook_event env req = inl msg ->
     stripeWebhookHandler env req w
     = (respond 400 (BText ("Webhook Error: " ++ msg)), w))
  /\ (forall event,
        webhook_event env req = inr event ->
        database_call_fails env event w = true ->
        stripeWebhookHandler env req w = (respond 500 BEmpty, w))
  /\ (forall event,
        webhook_event env req = inr event ->
        database_call_fails env event w = false ->
        fst (stripeWebhookHandler env req w) = acknowledge
        /\ (matching_order event w = None ->
            stripeWebhookHandler env req w = (acknowledge, w))).
Proof.
  unfold stripeWebhookHandler, database_call_fails, matching_order.
  split; [|split].
  - now intros msg ->.
  - intros event -> Hfail.
    destruct (checkout_completed event); [|discriminate]. simpl in Hfail.
    destruct (session_orderId (data_object event)) as [orderId|].
    { now rewrite Hfail. }
    destruct (session_truthy_id (data_object event)) as [sid|];
      [|discriminate].
    destruct (findOne_error env); [reflexivity|]. simpl in Hfail.
    destruct (findOne_bySession sid (orders w)); [|discriminate].
    now rewrite Hfail.
  - intros event -> Hok.
    destruct (checkout_completed event); [|now split]. simpl in Hok.
    destruct (session_orderId (data_object event)) as [orderId|].
    { rewrite Hok. split; [reflexivity|]. intros Hnone.
      rewrite (findByIdAndUpdate_absent orderId set_paid (orders w) Hnone).
      now destruct w. }
    destruct (session_truthy_id (data_object event)) as [sid|];
      [|now split].
    apply orb_false_iff in Hok as [Hfind Hupd]. rewrite Hfind.
    destruct (findOne_bySession sid (orders w));
      [rewrite Hupd; split; [reflexivity | discriminate] | now split].
Qed.

(** C5: when two deliveries of the same completed-checkout event both pass
    the signature check and no database call rejects, both are answered
    with the acknowledgement and the stores after the second delivery are
    the stores after the first. *)
Theorem stripeWebhookHandler_idempotent
    (env1 env2 : WebhookEnv) (req1 req2 : WebhookRequest) (event : Event)
    (w : World) :
  webhook_event env1 req1 = inr event ->
  webhook_event env2 req2 = inr event ->
  checkout_completed event = true ->
  findOne_error env1 = false -> update_error env1 = false ->
  findOne_error env2 = false -> update_error env2 = false ->
  fst (stripeWebhookHandler env1 req1 w) = acknowledge
  /\ fst (stripeWebhookHandler env2 req2
            (snd (stripeWebhookHandler env1 req1 w))) = acknowledge
  /\ snd (stripeWebhookHandler env2 req2
            (snd (stripeWebhookHandler env1 req1 w)))
     = snd (stripeWebhookHandler env1 req1 w).
Proof.
  intros Hev1 Hev2 Hdone Hf1 Hu1 Hf2 Hu2.
  unfold stripeWebhookHandler.
  rewrite Hev1, Hev2, Hdone, Hf1, Hu1, Hf2, Hu2.
  destruct (session_orderId (data_object event)) as [orderId|].
  { simpl. unfold with_orders. simpl.
    rewrite findByIdAndUpdate_idempotent; auto. }
  destruct (session_truthy_id (data_object event)) as [sid|];
    [|now repeat split].
  destruct (findOne_bySession sid (orders w)) as [order|] eqn:Hfound.
  - simpl.
    pose proof (findOne_bySession_update sid (_id order) set_paid (orders w)
                  set_paid_id set_paid_session) as Hsame.
    rewrite Hfound in Hsame. simpl in Hsame.
    destruct (findOne_bySession sid
                (findByIdAndUpdate (_id order) set_paid (orders w)))
      as [order'|]; [|discriminate].
    simpl in Hsame. injection Hsame as ->.
    simpl. unfold with_orders. simpl.
    rewrite findByIdAndUpdate_idempotent; auto.
  - simpl. rewrite Hfound. now repeat split.
Qed.

(** ** The payment invariant *)

Lemma set_paid_confirmed (o : Order) : paid_confirmed (set_paid o).
Proof. now intros _. Qed.

Lemma placeOrder_saved_invariant (env : PlaceEnv) (req : PlaceRequest)
    (order : Order) (w : World) :
  paid_confirmed order ->
  invariant w ->
  invariant (snd (placeOrder_saved env req order w)).
Proof.
  intros Ho Hw.
  assert (Hnew : Forall paid_confirmed (orders w ++ [order])).
  { apply Forall_app. split; [exact Hw | now constructor]. }
  assert (Hpatch : forall sid,
            Forall paid_confirmed
              (findByIdAndUpdate (_id order) (set_stripeSessionId sid)
                 (orders w ++ [order]))).
  { intros sid. apply findByIdAndUpdate_Forall; [|exact Hnew].
    intros o Hp. exact Hp. }
  unfold invariant, placeOrder_saved.
  destruct (is_str (paymentMethod order) "cod"
            || is_str (paymentMethod order) "none");
    [now destruct (cart_error env)|].
  destruct (sessions_create env) as [msg | session];
    [now destruct (cart_error env)|].
  destruct (attach_error env); [now destruct (cart_error env)|].
  destruct (session_url session) as [url|];
    [destruct (truthy_str url)|]; destruct (cart_error env); simpl;
    apply Hpatch.
Qed.

Lemma placeOrder_invariant (env : PlaceEnv) (req : PlaceRequest) (w : World) :
  invariant w -> invariant (snd (placeOrder env req w)).
Proof.
  intros Hw. unfold placeOrder.
  destruct (negb (truthy (resolve_userId req))); [exact Hw|].
  destruct (body_items req) as [[|a rest]|]; try exact Hw.
  destruct (normalizedItems (a :: rest)) as [nits | msg]; [|exact Hw].
  destruct (save_error env); [exact Hw|].
  apply placeOrder_saved_invariant; [|exact Hw].
  intros Hpaid. discriminate Hpaid.
Qed.

Lemma stripeWebhookHandler_invariant (env : WebhookEnv)
    (req : WebhookRequest) (w : World) :
  invariant w -> invariant (snd (stripeWebhookHandler env req w)).
Proof.
  intros Hw.
  assert (Hpaid : forall key,
            Forall paid_confirmed (findByIdAndUpdate key set_paid (orders w))).
  { intros key. apply findByIdAndUpdate_Forall; [|exact Hw].
    intros o _. apply set_paid_confirmed. }
  unfold stripeWebhookHandler.
  destruct (webhook_event env req) as [msg | event]; [exact Hw|].
  destruct (checkout_completed event); [|exact Hw].
  destruct (session_orderId (data_object event)) as [orderId|].
  { destruct (update_error env); [exact Hw | apply Hpaid]. }
  destruct (session_truthy_id (data_object event)) as [sid|]; [|exact Hw].
  destruct (findOne_error env); [exact Hw|].
  destruct (findOne_bySession sid (orders w)) as [order|]; [|exact Hw].
  destruct (update_error env); [exact Hw | apply Hpaid].
Qed.

Lemma verifyOrder_true_invariant (env : UpdateEnv) (req : VerifyRequest)
    (w : World) :
  success_is_true (verify_success req) = true ->
  invariant w -> invariant (snd (verifyOrder env req w)).
Proof.
  intros Htrue Hw. unfold verifyOrder. rewrite Htrue.
  destruct (negb (truthy (verify_orderId req))); [exact Hw|].
  destruct (db_error env); [exact Hw|].
  unfold invariant. simpl.
  destruct (verify_orderId req); try exact Hw.
  simpl. apply findByIdAndUpdate_Forall; [|exact Hw].
  intros o _. apply set_paid_confirmed.
Qed.

Lemma step_invariant (w : World) (op : Op) :
  payment_path op -> invariant w -> invariant (step w op).
Proof.
  destruct op as [env req | env req | env req | env req]; simpl.
  - intros _. apply placeOrder_invariant.
  - apply verifyOrder_true_invariant.
  - intros _. apply stripeWebhookHandler_invariant.
  - intros [].
Qed.

(** C2 (as amended): starting from stores in which every paid order is
    'confirmed', every sequence of [placeOrder] calls, webhook deliveries
    and [verifyOrder] calls with a true success value leads to stores in
    which every paid order is 'confirmed'. *)
Theorem payment_path_preserves_invariant (w : World) (ops : list Op) :
  invariant w ->
  Forall payment_path ops ->
  invariant (run w ops).
Proof.
  intros Hw Hops. revert w Hw.
  induction Hops as [|op ops Hop _ IH]; intros w Hw; simpl.
  - exact Hw.
  - apply IH. now apply step_invariant.
Qed.

(** ** Refusals of [placeOrder] *)

(** Case analysis for goals about status codes: hypotheses that are
    conjunctions, disjunctions or existentials are taken apart, the goal is
    split, and the pieces are closed by congruence. *)
Ltac take_apart :=
  match goal with
  | H : _ /\ _ |- _ => destruct H
  | H : _ \/ _ |- _ => destruct H
  | H : ex _ |- _ => destruct H
  end.

Ltac split_cases :=
  repeat first [take_apart | split | intro];
  try discriminate; try congruence; eauto 10.

Lemma placeOrder_saved_status (env : PlaceEnv) (req : PlaceRequest)
    (order : Order) (w : World) :
  (statusCode (fst (placeOrder_saved env req order w)) = 201%Z
   <-> is_str (paymentMethod order) "cod"
       || is_str (paymentMethod order) "none" = true)
  /\ (statusCode (fst (placeOrder_saved env req order w)) = 200%Z
      <-> is_str (paymentMethod order) "cod"
          || is_str (paymentMethod order) "none" = false
          /\ exists session url,
               sessions_create env = inr session
               /\ attach_error env = None
               /\ session_url session = Some url
               /\ truthy_str url = true).
Proof.
  unfold placeOrder_saved, placeOrder_catch.
  destruct (is_str (paymentMethod order) "cod"
            || is_str (paymentMethod order) "none"); simpl;
    [split_cases|].
  destruct (sessions_create env) as [msg | session] eqn:Hsess; simpl;
    [split_cases|].
  destruct (attach_error env) as [msg|] eqn:Hattach; simpl; [split_cases|].
  destruct (session_url session) as [url|] eqn:Hurl; simpl;
    [destruct (truthy_str url) eqn:Htruthy; simpl|]; split_cases.
Qed.

(** X1: the status code of [placeOrder] tells what happened.  The answer
    is 401 exactly when no user id can be resolved; 400 exactly when the
    user is resolved and the items are absent, not an array or empty; 201
    exactly when the request is valid, the order is saved and the payment
    method is 'cod' or 'none'; 200 exactly when the request is valid, the
    order is saved, the method is another one and the gateway returned a
    session with a non-empty url that was attached to the order.  After a
    401 or a 400 every store is as it was. *)
Theorem placeOrder_status_codes
    (env : PlaceEnv) (req : PlaceRequest) (w : World) :
  (statusCode (fst (placeOrder env req w)) = 401%Z
   <-> truthy (resolve_userId req) = false)
  /\ (statusCode (fst (placeOrder env req w)) = 400%Z
      <-> truthy (resolve_userId req) = true
          /\ (body_items req = None \/ body_items req = Some []))
  /\ (statusCode (fst (placeOrder env req w)) = 201%Z
      <-> exists nits,
            validated req nits
            /\ save_error env = None
            /\ offline_payment req = true)
  /\ (statusCode (fst (placeOrder env req w)) = 200%Z
      <-> exists nits session url,
            validated req nits
            /\ save_error env = None
            /\ offline_payment req = false
            /\ sessions_create env = inr session
            /\ attach_error env = None
            /\ session_url session = Some url
            /\ truthy_str url = true)
  /\ (statusCode (fst (placeOrder env req w)) = 401%Z
      \/ statusCode (fst (placeOrder env req w)) = 400%Z ->
      snd (placeOrder env req w) = w).
Proof.
  unfold placeOrder, validated, placeOrder_catch.
  destruct (truthy (resolve_userId req)) eqn:Huid; simpl; [|split_cases].
  destruct (body_items req) as [[|a rest]|] eqn:Hitems; simpl;
    [split_cases | | split_cases].
  destruct (normalizedItems (a :: rest)) as [nits | msg] eqn:Hnorm; simpl;
    [|split_cases].
  destruct (save_error env) as [msg|] eqn:Hsave; simpl; [split_cases|].
  destruct (placeOrder_saved_status env req (newOrder env req nits) w)
    as [H201 H200].
  rewrite (offline_payment_order env req nits) in H201, H200.
  assert (Hother : statusCode (fst (placeOrder_saved env req
                                      (newOrder env req nits) w)) <> 401%Z
                   /\ statusCode (fst (placeOrder_saved env req
                                         (newOrder env req nits) w))
                      <> 400%Z).
  { unfold placeOrder_saved, placeOrder_catch.
    destruct (is_str (paymentMethod (newOrder env req nits)) "cod"
              || is_str (paymentMethod (newOrder env req nits)) "none");
      [split_cases|].
    destruct (sessions_create env) as [? | session]; [split_cases|].
    destruct (attach_error env); [split_cases|].
    destruct (session_url session) as [url|];
      [destruct (truthy_str url)|]; split_cases. }
  destruct Hother as [H401 H400].
  assert (Hvalid : (a :: rest) <> []) by discriminate.
  split; [split_cases|]. split; [split_cases|].
  split; [|split].
  - split.
    + intros H. apply H201 in H. exists nits. split_cases.
    + intros (x & _ & _ & Hoff). now apply H201.
  - split.
    + intros H. apply H200 in H as (Hoff & session & url & Hrest).
      exists nits, session, url. split_cases.
    + intros (x & session & url & _ & _ & Hoff & Hrest).
      apply H200. split; [exact Hoff|]. now exists session, url.
  - intros [H | H]; contradiction.
Qed.

(** X2: when the request is valid but [newOrder.save()] rejects, the
    answer is 500 with the message of the error ('Internal Server Error'
    when that message is empty); no order is stored, the cart is not
    cleared and the gateway is not contacted. *)
Theorem placeOrder_save_failure
    (env : PlaceEnv) (req : PlaceRequest) (w : World) (nits : list Item)
    (msg : string) :
  validated req nits ->
  save_error env = Some msg ->
  placeOrder env req w
  = (respond 500
       (BMessage false
          (if String.eqb msg "" then "Internal Server Error" else msg)),
     w).
Proof.
  intros (Huid & its & Hitems & Hne & Hnorm) Hsave.
  unfold placeOrder. rewrite Huid, Hitems. simpl.
  destruct its as [|a rest]; [congruence|].
  rewrite Hnorm, Hsave. unfold placeOrder_catch, truthy_str.
  now destruct (String.eqb msg "").
Qed.

(** ** What the normalisation stores *)

Lemma or_one_truthy (n : float) : truthy_num (or_one n) = true.
Proof.
  unfold or_one. destruct (truthy_num n) eqn:Hn; [exact Hn | reflexivity].
Qed.

Lemma normalizeItem_Ok (it : RawItem) (item : Item) :
  normalizeItem it = Ok item ->
  invalid_price (Number (raw_price it)) = false
  /\ normalizes_to it item
  /\ valid_item item.
Proof.
  unfold normalizeItem, normalizes_to, valid_item.
  destruct (invalid_price (Number (raw_price it))) eqn:Hprice;
    [discriminate|].
  intros Hok. injection Hok as <-. simpl.
  repeat split; try assumption. apply or_one_truthy.
Qed.

Lemma map_result_Ok_cons {A B : Type} (f : A -> result B) (a : A)
    (rest : list A) (bs : list B) :
  map_result f (a :: rest) = Ok bs ->
  exists b bs', bs = b :: bs' /\ f a = Ok b /\ map_result f rest = Ok bs'.
Proof.
  simpl. destruct (f a) as [b | msg]; [|discriminate].
  destruct (map_result f rest) as [bs' | msg]; [|discriminate].
  intros Hok. injection Hok as <-. now exists b, bs'.
Qed.

(** X3: the items are accepted exactly when no price is NaN or negative
    after [Number]. *)
Theorem normalizedItems_accepts_iff (its : list RawItem) :
  (exists nits, normalizedItems its = Ok nits)
  <-> Forall (fun it => invalid_price (Number (raw_price it)) = false) its.
Proof.
  unfold normalizedItems. induction its as [|a rest IH]; split.
  - intros _. constructor.
  - intros _. now exists [].
  - intros [nits Hok].
    destruct (map_result_Ok_cons _ _ _ _ Hok) as (b & bs' & _ & Hb & Hrest).
    constructor.
    + now apply normalizeItem_Ok in Hb.
    + apply IH. now exists bs'.
  - intros Hall. inversion Hall as [|x l Ha Hrest]; subst.
    destruct (normalizeItem_valid a Ha) as (item & Hitem & _).
    apply IH in Hrest as [bs' Hbs'].
    exists (item :: bs'). simpl. now rewrite Hitem, Hbs'.
Qed.

(** X4: accepted items are stored one for one and in order, each with the
    id, name and truthy image of its raw item, the price [Number(price)]
    and the quantity [Number(quantity) || 1]; a stored price is never NaN
    or negative and a stored quantity is never NaN or zero. *)
Theorem normalizedItems_stores (its : list RawItem) (nits : list Item) :
  normalizedItems its = Ok nits ->
  Forall2 normalizes_to its nits /\ Forall valid_item nits.
Proof.
  unfold normalizedItems. revert nits.
  induction its as [|a rest IH]; intros nits Hok.
  - injection Hok as <-. split; constructor.
  - destruct (map_result_Ok_cons _ _ _ _ Hok) as (b & bs' & -> & Hb & Hrest).
    apply normalizeItem_Ok in Hb as (_ & Hnorm & Hvalid).
    destruct (IH bs' Hrest) as [Hall2 Hall].
    split; constructor; assumption.
Qed.

(** Comparisons of binary64 numbers with 0 and 1. *)
Lemma nonnegative_valid_price (p : float) :
  PrimFloat.leb 0%float p = true -> invalid_price p = false.
Proof.
  unfold invalid_price, PrimFloat.is_nan.
  rewrite FloatAxioms.leb_spec, FloatAxioms.ltb_spec, FloatAxioms.eqb_spec.
  unfold SFleb, SFltb, SFeqb.
  replace (Prim2SF 0%float) with (S754_zero false) by reflexivity.
  destruct (Prim2SF p) as [s | s | | s m e]; simpl; try discriminate.
  - reflexivity.
  - destruct s; [discriminate | reflexivity].
  - destruct s; [discriminate|]. intros _.
    now rewrite Z.compare_refl, Pos.compare_cont_refl.
Qed.

Lemma at_least_one_truthy (q : float) :
  PrimFloat.leb 1%float q = true -> truthy_num q = true.
Proof.
  unfold truthy_num, PrimFloat.is_nan.
  rewrite FloatAxioms.leb_spec, !FloatAxioms.eqb_spec.
  unfold SFleb, SFeqb.
  replace (Prim2SF 0%float) with (S754_zero false) by reflexivity.
  replace (Prim2SF 1%float)
    with (S754_finite false 4503599627370496 (-52)) by reflexivity.
  destruct (Prim2SF q) as [s | s | | s m e]; simpl; try discriminate.
  - destruct s; [discriminate | reflexivity].
  - destruct s; [discriminate|]. intros _.
    now rewrite Z.compare_refl, Pos.compare_cont_refl.
Qed.

(** X5: an item sent with a numeric price of at least 0 and a numeric
    quantity of at least 1 is stored with exactly that price and that
    quantity. *)
Theorem normalizeItem_keeps_valid_numbers
    (it : RawItem) (p q : float) :
  raw_price it = VNum p ->
  raw_quantity it = VNum q ->
  PrimFloat.leb 0%float p = true ->
  PrimFloat.leb 1%float q = true ->
  exists item,
    normalizeItem it = Ok item /\ price item = p /\ quantity item = q.
Proof.
  intros Hp Hq Hpos Hone.
  unfold normalizeItem. rewrite Hp, Hq. simpl.
  rewrite (nonnegative_valid_price p Hpos).
  eexists. split; [reflexivity|]. simpl. split; [reflexivity|].
  unfold or_one. now rewrite (at_least_one_truthy q Hone).
Qed.

(** ** The Stripe path of [placeOrder] *)

Lemma findByIdAndUpdate_map {B : Type} (f : Order -> B) (key : string)
    (patch : Order -> Order) (os : list Order) :
  (forall o, f (patch o) = f o) ->
  map f (findByIdAndUpdate key patch os) = map f os.
Proof.
  intros Hf. induction os as [|o rest IH]; simpl; [reflexivity|].
  destruct (String.eqb (_id o) key); simpl; [now rewrite Hf | now rewrite IH].
Qed.

(** The patch of a fresh id reaches the order that was just appended. *)
Lemma findByIdAndUpdate_appended (patch : Order -> Order) (os : list Order)
    (o : Order) :
  ~ In (_id o) (map _id os) ->
  findByIdAndUpdate (_id o) patch (os ++ [o]) = os ++ [patch o].
Proof.
  intros Hfresh.
  apply (findByIdAndUpdate_split (_id o) patch os [] o); [|reflexivity].
  apply List.Forall_forall. intros x Hx Heq.
  apply Hfresh. rewrite <- Heq. now apply in_map.
Qed.

Lemma placeOrder_saved_map {B : Type} (f : Order -> B) (env : PlaceEnv)
    (req : PlaceRequest) (order : Order) (w : World) :
  (forall sid o, f (set_stripeSessionId sid o) = f o) ->
  map f (orders (snd (placeOrder_saved env req order w)))
  = map f (orders w) ++ [f order].
Proof.
  intros Hf.
  assert (Hpatch : forall sid os,
            map f (findByIdAndUpdate (_id order)
                     (set_stripeSessionId sid) os) = map f os).
  { intros. now apply findByIdAndUpdate_map. }
  unfold placeOrder_saved.
  destruct (is_str (paymentMethod order) "cod"
            || is_str (paymentMethod order) "none");
    [destruct (cart_error env); simpl; now rewrite map_app|].
  destruct (sessions_create env) as [msg | session];
    [destruct (cart_error env); simpl; now rewrite map_app|].
  destruct (attach_error env);
    [destruct (cart_error env); simpl; now rewrite map_app|].
  destruct (session_url session) as [url|];
    [destruct (truthy_str url)|]; destruct (cart_error env); simpl;
    now rewrite Hpatch, map_app.
Qed.

(** X6: once [save()] has resolved, no later failure undoes the order:
    whatever the cart update, the gateway and the attach step answer (and
    so whatever the response, 201, 200 or 500), the collection is the old
    one followed by one order that carries the new id, the resolved user
    and the normalised items, is unpaid, and has status 'awaiting_payment'
    for the method 'stripe' and 'pending' for any other. *)
Theorem placeOrder_no_rollback
    (env : PlaceEnv) (req : PlaceRequest) (w : World) (nits : list Item) :
  validated req nits ->
  save_error env = None ->
  map created_fields (orders (snd (placeOrder env req w)))
  = map created_fields (orders w)
    ++ [(new_id env, resolve_userId req, nits, body_amount req,
         body_address req, effective_paymentMethod req, now env)]
  /\ map payment (orders (snd (placeOrder env req w)))
     = map payment (orders w) ++ [false]
  /\ map status (orders (snd (placeOrder env req w)))
     = map status (orders w)
       ++ [if is_str (effective_paymentMethod req) "stripe"
           then VStr "awaiting_payment" else VStr "pending"].
Proof.
  intros Hval Hsave.
  rewrite (placeOrder_validated env req w nits Hval Hsave).
  rewrite !placeOrder_saved_map by reflexivity.
  repeat split.
Qed.

(** X7: a checkout that goes through.  For a valid request with a payment
    method other than 'cod' and 'none', a fresh order id, a gateway that
    returns a session with a non-empty url and an attach step that
    resolves, the answer is 200 with that url; the collection gains
    exactly the new order, carrying the id of the session; and the gateway
    received exactly one request, built from that order. *)
Theorem placeOrder_checkout_created
    (env : PlaceEnv) (req : PlaceRequest) (w : World) (nits : list Item)
    (session : StripeSession) (url : string) :
  validated req nits ->
  save_error env = None ->
  offline_payment req = false ->
  sessions_create env = inr session ->
  attach_error env = None ->
  session_url session = Some url ->
  truthy_str url = true ->
  ~ In (new_id env) (map _id (orders w)) ->
  fst (placeOrder env req w) = respond 200 (BSession url)
  /\ orders (snd (placeOrder env req w))
     = orders w
       ++ [set_stripeSessionId (session_id session) (newOrder env req nits)]
  /\ gateway (snd (placeOrder env req w))
     = gateway w ++ [checkout_request env (newOrder env req nits)].
Proof.
  intros Hval Hsave Hon Hsess Hattach Hurl Htruthy Hfresh.
  rewrite (placeOrder_validated env req w nits Hval Hsave).
  rewrite <- (offline_payment_order env req nits) in Hon.
  unfold placeOrder_saved. rewrite Hon, Hsess, Hattach, Hurl, Htruthy.
  pose proof (findByIdAndUpdate_appended
                (set_stripeSessionId (session_id session)) (orders w)
                (newOrder env req nits) Hfresh) as Hpatched.
  destruct (cart_error env); simpl in *; rewrite Hpatched; now repeat split.
Qed.

(** X8: a gateway or attach failure after the order is saved.  When
    [sessions.create] rejects, or resolves and the attach step rejects,
    the answer is 500 with the message of the error, yet the new order
    stays in the collection (unpaid, without session id) and the request
    to the gateway has been made. *)
Theorem placeOrder_gateway_failure
    (env : PlaceEnv) (req : PlaceRequest) (w : World) (nits : list Item)
    (msg : string) :
  validated req nits ->
  save_error env = None ->
  offline_payment req = false ->
  sessions_create env = inl msg
  \/ (exists session,
        sessions_create env = inr session /\ attach_error env = Some msg) ->
  fst (placeOrder env req w)
  = respond 500
      (BMessage false
         (if String.eqb msg "" then "Internal Server Error" else msg))
  /\ orders (snd (placeOrder env req w))
     = orders w ++ [newOrder env req nits]
  /\ gateway (snd (placeOrder env req w))
     = gateway w ++ [checkout_request env (newOrder env req nits)].
Proof.
  intros Hval Hsave Hon Hfail.
  rewrite (placeOrder_validated env req w nits Hval Hsave).
  rewrite <- (offline_payment_order env req nits) in Hon.
  unfold placeOrder_saved, placeOrder_catch, truthy_str. rewrite Hon.
  destruct Hfail as [-> | (session & -> & ->)];
    destruct (cart_error env), (String.eqb msg ""); now repeat split.
Qed.

(** X9: a session without url.  When the gateway returns a session whose
    url is null or empty, the answer is 500 'Failed to create Stripe
    checkout session', while the new order stays in the collection with
    the id of that session attached. *)
Theorem placeOrder_session_without_url
    (env : PlaceEnv) (req : PlaceRequest) (w : World) (nits : list Item)
    (session : StripeSession) :
  validated req nits ->
  save_error env = None ->
  offline_payment req = false ->
  sessions_create env = inr session ->
  attach_error env = None ->
  session_url session = None \/ session_url session = Some "" ->
  ~ In (new_id env) (map _id (orders w)) ->
  fst (placeOrder env req w)
  = respond 500 (BMessage false "Failed to create Stripe checkout session")
  /\ orders (snd (placeOrder env req w))
     = orders w
       ++ [set_stripeSessionId (session_id session) (newOrder env req nits)].
Proof.
  intros Hval Hsave Hon Hsess Hattach Hurl Hfresh.
  rewrite (placeOrder_validated env req w nits Hval Hsave).
  rewrite <- (offline_payment_order env req nits) in Hon.
  unfold placeOrder_saved. rewrite Hon, Hsess, Hattach.
  pose proof (findByIdAndUpdate_appended
                (set_stripeSessionId (session_id session)) (orders w)
                (newOrder env req nits) Hfresh) as Hpatched.
  destruct Hurl as [-> | ->]; destruct (cart_error env); simpl in *;
    rewrite Hpatched; now repeat split.
Qed.

(** X10: a payment method that is none of 'stripe', 'cod' and 'none' (a
    misspelt or null one) is sent to the gateway like 'stripe', while the
    order it creates has status 'pending' like an offline order. *)
Theorem placeOrder_unknown_method
    (env : PlaceEnv) (req : PlaceRequest) (w : World) (nits : list Item) :
  validated req nits ->
  save_error env = None ->
  offline_payment req = false ->
  is_str (effective_paymentMethod req) "stripe" = false ->
  gateway (snd (placeOrder env req w))
  = gateway w ++ [checkout_request env (newOrder env req nits)]
  /\ map status (orders (snd (placeOrder env req w)))
     = map status (orders w) ++ [VStr "pending"].
Proof.
  intros Hval Hsave Hon Hstripe.
  rewrite (placeOrder_validated env req w nits Hval Hsave).
  rewrite <- (offline_payment_order env req nits) in Hon.
  rewrite (placeOrder_saved_online env req _ w Hon).
  rewrite placeOrder_saved_map by reflexivity.
  simpl. now rewrite Hstripe.
Qed.

(** ** The delivery line *)

(** A number that is neither NaN nor zero is positive or negative. *)
Lemma truthy_sign (c : float) :
  truthy_num c = true ->
  PrimFloat.ltb 0%float c = negb (PrimFloat.ltb c 0%float).
Proof.
  unfold truthy_num, PrimFloat.is_nan.
  rewrite !FloatAxioms.ltb_spec, !FloatAxioms.eqb_spec.
  unfold SFltb, SFeqb.
  replace (Prim2SF 0%float) with (S754_zero false) by reflexivity.
  destruct (Prim2SF c) as [s | s | | s m e]; simpl; try discriminate.
  - now destruct s.
  - now destruct s.
Qed.

Lemma falsy_not_negative (c : float) :
  truthy_num c = false -> PrimFloat.ltb c 0%float = false.
Proof.
  unfold truthy_num, PrimFloat.is_nan.
  rewrite !FloatAxioms.ltb_spec, !FloatAxioms.eqb_spec.
  unfold SFltb, SFeqb.
  replace (Prim2SF 0%float) with (S754_zero false) by reflexivity.
  destruct (Prim2SF c) as [s | s | | s m e]; simpl; try reflexivity.
  - now destruct s.
  - destruct s; rewrite Z.compare_refl, Pos.compare_cont_refl; discriminate.
Qed.

(** X11: the delivery line is left out exactly when the configured fee is
    a negative number; in every other configuration (unset, not a number,
    zero or positive) the session carries exactly one delivery line, for
    the effective fee. *)
Theorem delivery_line_omitted_iff_negative (pe : ProcessEnv) :
  (PrimFloat.ltb (configured_fee pe) 0%float = true ->
   delivery_lines pe = [])
  /\ (PrimFloat.ltb (configured_fee pe) 0%float = false ->
      delivery_lines pe = [delivery_line (delivery_fee pe)]).
Proof.
  unfold delivery_lines, delivery_fee.
  destruct (truthy_num (configured_fee pe)) eqn:Htruthy.
  - rewrite (truthy_sign _ Htruthy). split; now intros ->.
  - rewrite (falsy_not_negative _ Htruthy). split; [discriminate|].
    reflexivity.
Qed.

(** ** [verifyOrder] and [updateStatus] on the collection *)

Lemma findByIdAndUpdate_compose (key : string) (p1 p2 : Order -> Order)
    (os : list Order) :
  (forall o, _id (p1 o) = _id o) ->
  findByIdAndUpdate key p2 (findByIdAndUpdate key p1 os)
  = findByIdAndUpdate key (fun o => p2 (p1 o)) os.
Proof.
  intros Hid. induction os as [|o rest IH]; simpl; [reflexivity|].
  destruct (String.eqb (_id o) key) eqn:Ho; simpl.
  - now rewrite Hid, Ho.
  - now rewrite Ho, IH.
Qed.

Lemma findByIdAndUpdate_value_compose (key : value) (p1 p2 : Order -> Order)
    (os : list Order) :
  (forall o, _id (p1 o) = _id o) ->
  findByIdAndUpdate_value key p2 (findByIdAndUpdate_value key p1 os)
  = findByIdAndUpdate_value key (fun o => p2 (p1 o)) os.
Proof.
  intros Hid. destruct key; try reflexivity.
  simpl. now apply findByIdAndUpdate_compose.
Qed.

Lemma with_orders_same (w : World) : with_orders w (orders w) = w.
Proof. now destruct w. Qed.

(** X12: [verifyOrder] is idempotent: answering the same request again, on
    the stores the first call left, gives the same response and leaves the
    stores as they are; so for a true success value (the order stays paid
    and 'confirmed') and for any other (it stays 'cancelled'). *)
Theorem verifyOrder_idempotent
    (env : UpdateEnv) (req : VerifyRequest) (w : World) :
  verifyOrder env req (snd (verifyOrder env req w)) = verifyOrder env req w.
Proof.
  unfold verifyOrder.
  destruct (negb (truthy (verify_orderId req))); [reflexivity|].
  destruct (success_is_true (verify_success req)), (db_error env);
    try reflexivity; simpl; unfold with_orders; simpl;
    now rewrite findByIdAndUpdate_value_compose.
Qed.

(** X13: an id that names no order.  [verifyOrder] and [updateStatus] do
    not look at what the update found: for a string id that no order
    carries they answer as for a known one ('Paid' / 'Not Paid' / 'Status
    Updated', status 200) and change nothing. *)
Theorem update_of_unknown_id
    (env : UpdateEnv) (key : string) (success st : value) (w : World) :
  truthy_str key = true ->
  db_error env = false ->
  List.find (fun o => String.eqb (_id o) key) (orders w) = None ->
  verifyOrder env {| verify_orderId := VStr key; verify_success := success |}
    w
  = (json (BMessage (success_is_true success)
             (if success_is_true success then "Paid" else "Not Paid")), w)
  /\ (truthy st = true ->
      updateStatus env {| status_orderId := VStr key; status_status := st |}
        w
      = (json (BMessage true "Status Updated"), w)).
Proof.
  intros Hkey Hdb Hnone. unfold verifyOrder, updateStatus. simpl.
  rewrite Hkey, Hdb. simpl.
  rewrite !(findByIdAndUpdate_absent key _ (orders w) Hnone).
  rewrite with_orders_same.
  split; [now destruct (success_is_true success)|].
  now intros ->.
Qed.

(** X14: [updateStatus] (1) answers 400 'orderId and status required',
    changing nothing, when the order id or the status is missing (or
    falsy); (2) answers 500 'Error', changing nothing, when the database
    call rejects; (3) otherwise answers 'Status Updated' and writes the
    status into the order of that id, whatever the status was and whether
    or not the order is paid; the payment flag and the created fields of
    that order, and every other order, are as before. *)
Theorem updateStatus_outcomes
    (env : UpdateEnv) (req : StatusRequest) (w : World) :
  (truthy (status_orderId req) = false \/ truthy (status_status req) = false ->
   updateStatus env req w
   = (respond 400 (BMessage false "orderId and status required"), w))
  /\ (truthy (status_orderId req) = true ->
      truthy (status_status req) = true ->
      db_error env = true ->
      updateStatus env req w = (respond 500 (BMessage false "Error"), w))
  /\ (truthy (status_orderId req) = true ->
      truthy (status_status req) = true ->
      db_error env = false ->
      fst (updateStatus env req w) = json (BMessage true "Status Updated")
      /\ forall key pre o post,
           status_orderId req = VStr key ->
           orders w = pre ++ o :: post ->
           Forall (fun x => _id x <> key) pre ->
           _id o = key ->
           exists o',
             orders (snd (updateStatus env req w)) = pre ++ o' :: post
             /\ status o' = status_status req
             /\ payment o' = payment o
             /\ created_fields o' = created_fields o).
Proof.
  unfold updateStatus. split; [|split].
  - intros [-> | ->]; [reflexivity | now rewrite orb_true_r].
  - now intros -> -> ->.
  - intros -> -> ->. simpl. split; [reflexivity|].
    intros key pre o post -> -> Hpre Ho. simpl.
    rewrite (findByIdAndUpdate_split key _ pre post o Hpre Ho).
    exists (set_status (status_status req) o). now repeat split.
Qed.

(** X15: the last status written wins: after any [updateStatus] request, a
    valid [updateStatus] for the same order id leaves the stores exactly as
    if the earlier request had never been made. *)
Theorem updateStatus_last_write_wins
    (env1 env2 : UpdateEnv) (req1 req2 : StatusRequest) (w : World) :
  status_orderId req1 = status_orderId req2 ->
  truthy (status_orderId req2) = true ->
  truthy (status_status req2) = true ->
  db_error env2 = false ->
  snd (updateStatus env2 req2 (snd (updateStatus env1 req1 w)))
  = snd (updateStatus env2 req2 w).
Proof.
  intros Hsame Hid Hst Hdb. unfold updateStatus.
  rewrite Hsame, Hid, Hst, Hdb. simpl.
  destruct (negb (truthy (status_status req1))); [reflexivity|].
  destruct (db_error env1); [reflexivity|]. simpl.
  unfold with_orders. simpl.
  now rewrite findByIdAndUpdate_value_compose.
Qed.

(** ** Webhook deliveries *)

(** X16: events the handler does not act on.  A verified event of another
    type than 'checkout.session.completed', and a completed checkout that
    carries neither an order id in its metadata nor a session id, are
    acknowledged with 200 and change nothing; no database call is made, so
    the outcome does not depend on the database. *)
Theorem stripeWebhookHandler_ignores
    (env : WebhookEnv) (req : WebhookRequest) (w : World) (event : Event) :
  webhook_event env req = inr event ->
  checkout_completed event = false
  \/ (session_orderId (data_object event) = None
      /\ session_truthy_id (data_object event) = None) ->
  stripeWebhookHandler env req w = (acknowledge, w).
Proof.
  intros Hev Hskip. unfold stripeWebhookHandler. rewrite Hev.
  destruct Hskip as [-> | [-> ->]]; [reflexivity|].
  now destruct (checkout_completed event).
Qed.

(** X17: without a webhook secret (unset or empty) the body is trusted as
    it is: a body that says 'checkout.session.completed' and names an
    order in its metadata marks that order paid and 'confirmed', whatever
    the signature header and whatever the signature check would have
    answered. *)
Theorem stripeWebhookHandler_without_secret
    (env : WebhookEnv) (req : WebhookRequest) (w : World) (key : string)
    (pre post : list Order) (o : Order) :
  STRIPE_WEBHOOK_SECRET (webhook_env env) = None
  \/ STRIPE_WEBHOOK_SECRET (webhook_env env) = Some "" ->
  type (webhook_body req) = "checkout.session.completed" ->
  metadata (data_object (webhook_body req)) = Some (Some key) ->
  truthy_str key = true ->
  update_error env = false ->
  orders w = pre ++ o :: post ->
  Forall (fun x => _id x <> key) pre ->
  _id o = key ->
  stripeWebhookHandler env req w
  = (acknowledge, with_orders w (pre ++ set_paid o :: post)).
Proof.
  intros Hsecret Htype Hmeta Hkey Hupd Hos Hpre Ho.
  assert (Hev : webhook_event env req = inr (webhook_body req)).
  { unfold webhook_event. now destruct Hsecret as [-> | ->]. }
  unfold stripeWebhookHandler, checkout_completed, session_orderId.
  rewrite Hev, Htype, Hmeta, Hkey, Hupd, Hos. simpl.
  now rewrite (findByIdAndUpdate_split key set_paid pre post o Hpre Ho).
Qed.

Lemma placeOrder_saved_attached (env : PlaceEnv) (req : PlaceRequest)
    (order : Order) (w : World) (session : StripeSession) :
  is_str (paymentMethod order) "cod" || is_str (paymentMethod order) "none"
  = false ->
  sessions_create env = inr session ->
  attach_error env = None ->
  ~ In (_id order) (map _id (orders w)) ->
  orders (snd (placeOrder_saved env req order w))
  = orders w ++ [set_stripeSessionId (session_id session) order].
Proof.
  intros Hon Hsess Hattach Hfresh.
  unfold placeOrder_saved. rewrite Hon, Hsess, Hattach.
  pose proof (findByIdAndUpdate_appended
                (set_stripeSessionId (session_id session)) (orders w)
                order Hfresh) as Hpatched.
  destruct (session_url session) as [url|];
    [destruct (truthy_str url)|]; destruct (cart_error env); simpl in *;
    now rewrite Hpatched.
Qed.

Lemma findOne_bySession_app (sid : string) (os more : list Order) :
  findOne_bySession sid os = None ->
  findOne_bySession sid (os ++ more) = findOne_bySession sid more.
Proof.
  induction os as [|o rest IH]; simpl; [reflexivity|].
  destruct (stripeSessionId o) as [s|]; [|exact IH].
  destruct (String.eqb s sid); [discriminate | exact IH].
Qed.

(** X18: from checkout to confirmation through the metadata.  After a
    [placeOrder] on the Stripe path (fresh, non-empty order id; session
    created and attached), the delivery of a verified completed-checkout
    event whose metadata carries the order id that [placeOrder] put into
    the checkout request leaves the collection as the old one followed by
    the new order, now paid and 'confirmed', with its session id. *)
Theorem placeOrder_then_webhook_by_metadata
    (env : PlaceEnv) (req : PlaceRequest) (w : World) (nits : list Item)
    (session : StripeSession)
    (henv : WebhookEnv) (hreq : WebhookRequest) (event : Event) :
  validated req nits ->
  save_error env = None ->
  offline_payment req = false ->
  sessions_create env = inr session ->
  attach_error env = None ->
  ~ In (new_id env) (map _id (orders w)) ->
  truthy_str (new_id env) = true ->
  webhook_event henv hreq = inr event ->
  checkout_completed event = true ->
  metadata (data_object event)
  = Some (Some (metadata_orderId
                  (checkout_request env (newOrder env req nits)))) ->
  update_error henv = false ->
  orders (snd (stripeWebhookHandler henv hreq (snd (placeOrder env req w))))
  = orders w
    ++ [set_paid (set_stripeSessionId (session_id session)
                    (newOrder env req nits))].
Proof.
  intros Hval Hsave Hon Hsess Hattach Hfresh Hid Hev Hdone Hmeta Hupd.
  rewrite (placeOrder_validated env req w nits Hval Hsave).
  rewrite <- (offline_payment_order env req nits) in Hon.
  unfold stripeWebhookHandler, session_orderId.
  rewrite Hev, Hdone, Hmeta. simpl. rewrite Hid, Hupd. simpl.
  rewrite (placeOrder_saved_attached env req _ w session Hon Hsess Hattach
             Hfresh).
  now apply (findByIdAndUpdate_appended set_paid (orders w)
               (set_stripeSessionId (session_id session)
                  (newOrder env req nits))).
Qed.

(** X19: from checkout to confirmation through the session id.  The same
    holds for an event without order id in its metadata that carries the
    id of the session the gateway returned, provided that id is not empty
    and no earlier order carries it: the fallback lookup finds the new
    order and marks it paid and 'confirmed'. *)
Theorem placeOrder_then_webhook_by_session
    (env : PlaceEnv) (req : PlaceRequest) (w : World) (nits : list Item)
    (session : StripeSession)
    (henv : WebhookEnv) (hreq : WebhookRequest) (event : Event) :
  validated req nits ->
  save_error env = None ->
  offline_payment req = false ->
  sessions_create env = inr session ->
  attach_error env = None ->
  ~ In (new_id env) (map _id (orders w)) ->
  findOne_bySession (session_id session) (orders w) = None ->
  truthy_str (session_id session) = true ->
  webhook_event henv hreq = inr event ->
  checkout_completed event = true ->
  session_orderId (data_object event) = None ->
  id (data_object event) = Some (session_id session) ->
  findOne_error henv = false ->
  update_error henv = false ->
  orders (snd (stripeWebhookHandler henv hreq (snd (placeOrder env req w))))
  = orders w
    ++ [set_paid (set_stripeSessionId (session_id session)
                    (newOrder env req nits))].
Proof.
  intros Hval Hsave Hon Hsess Hattach Hfresh Hnone Hsid Hev Hdone Hmeta
    Hevid Hfind Hupd.
  rewrite (placeOrder_validated env req w nits Hval Hsave).
  rewrite <- (offline_payment_order env req nits) in Hon.
  unfold stripeWebhookHandler, session_truthy_id.
  rewrite Hev, Hdone, Hmeta, Hevid, Hsid, Hfind.
  rewrite (placeOrder_saved_attached env req _ w session Hon Hsess Hattach
             Hfresh).
  rewrite (findOne_bySession_app _ _ _ Hnone). simpl.
  rewrite String.eqb_refl, Hupd. simpl.
  now apply (findByIdAndUpdate_appended set_paid (orders w)
               (set_stripeSessionId (session_id session)
                  (newOrder env req nits))).
Qed.

(** X20: the two confirmation paths write the same thing: a verified
    completed-checkout event whose metadata names an order leaves the
    stores exactly as [verifyOrder] with that order id and a true success
    value does. *)
Theorem webhook_agrees_with_verifyOrder
    (henv : WebhookEnv) (hreq : WebhookRequest) (venv : UpdateEnv)
    (event : Event) (key : string) (success : value) (w : World) :
  webhook_event henv hreq = inr event ->
  checkout_completed event = true ->
  session_orderId (data_object event) = Some key ->
  update_error henv = false ->
  db_error venv = false ->
  success_is_true success = true ->
  snd (stripeWebhookHandler henv hreq w)
  = snd (verifyOrder venv
           {| verify_orderId := VStr key; verify_success := success |} w).
Proof.
  intros Hev Hdone Hkey Hupd Hdb Htrue.
  assert (Htruthy : truthy_str key = true).
  { unfold session_orderId in Hkey.
    destruct (metadata (data_object event)) as [[oid|]|]; try discriminate.
    destruct (truthy_str oid) eqn:Hoid; [|discriminate].
    injection Hkey as <-. exact Hoid. }
  unfold stripeWebhookHandler, verifyOrder. simpl.
  now rewrite Hev, Hdone, Hkey, Hupd, Htruthy, Htrue, Hdb.
Qed.

(** ** What no sequence of requests does *)

Lemma evolves_refl (o : Order) : evolves o o.
Proof. now split. Qed.

Lemma evolves_trans (a b c : Order) : evolves a b -> evolves b c -> evolves a c.
Proof.
  intros [Hab Hpab] [Hbc Hpbc]. split; [congruence | auto].
Qed.

Lemma Forall2_evolves_refl (os : list Order) : Forall2 evolves os os.
Proof. induction os; constructor; [apply evolves_refl | assumption]. Qed.

Lemma Forall2_evolves_trans (a b c : list Order) :
  Forall2 evolves a b -> Forall2 evolves b c -> Forall2 evolves a c.
Proof.
  intros Hab. revert c. induction Hab as [|x y a b Hxy _ IH]; intros c Hbc.
  - inversion Hbc. constructor.
  - inversion Hbc as [|y' z b' c' Hyz Hrest]; subst.
    constructor; [eapply evolves_trans; eassumption | now apply IH].
Qed.

Lemma findByIdAndUpdate_evolves (key : string) (patch : Order -> Order)
    (os : list Order) :
  (forall o, evolves o (patch o)) ->
  Forall2 evolves os (findByIdAndUpdate key patch os).
Proof.
  intros Hpatch. induction os as [|o rest IH]; simpl; [constructor|].
  destruct (String.eqb (_id o) key); constructor;
    auto using evolves_refl, Forall2_evolves_refl.
Qed.

Lemma findByIdAndUpdate_value_evolves (key : value) (patch : Order -> Order)
    (os : list Order) :
  (forall o, evolves o (patch o)) ->
  Forall2 evolves os (findByIdAndUpdate_value key patch os).
Proof.
  intros Hpatch. destruct key; simpl;
    auto using Forall2_evolves_refl, findByIdAndUpdate_evolves.
Qed.

Lemma set_paid_evolves (o : Order) : evolves o (set_paid o).
Proof. now split. Qed.

Lemma set_status_evolves (st : value) (o : Order) : evolves o (set_status st o).
Proof. now split. Qed.

Lemma set_stripeSessionId_evolves (sid : string) (o : Order) :
  evolves o (set_stripeSessionId sid o).
Proof. now split. Qed.

Lemma extends_refl (w : World) : extends w w.
Proof.
  exists (orders w), []. split; [now rewrite app_nil_r|].
  apply Forall2_evolves_refl.
Qed.

Lemma extends_evolved (w w' : World) :
  Forall2 evolves (orders w) (orders w') -> extends w w'.
Proof. intros H. exists (orders w'), []. now rewrite app_nil_r. Qed.

Lemma extends_trans (a b c : World) : extends a b -> extends b c -> extends a c.
Proof.
  intros (kept1 & added1 & Hb & Hab) (kept2 & added2 & Hc & Hbc).
  rewrite Hb in Hbc.
  apply List.Forall2_app_inv_l in Hbc as (k21 & k22 & Hk21 & _ & ->).
  exists k21, (k22 ++ added2). split.
  - now rewrite Hc, app_assoc.
  - eapply Forall2_evolves_trans; eassumption.
Qed.

Lemma placeOrder_saved_extends (env : PlaceEnv) (req : PlaceRequest)
    (order : Order) (w : World) :
  extends w (snd (placeOrder_saved env req order w)).
Proof.
  assert (Happ : forall w', orders w' = orders w ++ [order] -> extends w w').
  { intros w' Hw'. exists (orders w), [order]. split; [exact Hw'|].
    apply Forall2_evolves_refl. }
  assert (Hpatch : forall sid w',
            orders w'
            = findByIdAndUpdate (_id order) (set_stripeSessionId sid)
                (orders w ++ [order]) ->
            extends w w').
  { intros sid w' Hw'.
    pose proof (findByIdAndUpdate_evolves (_id order)
                  (set_stripeSessionId sid) (orders w ++ [order])
                  (set_stripeSessionId_evolves sid)) as Hev.
    apply List.Forall2_app_inv_l in Hev as (kept & added & Hkept & _ & Heq).
    exists kept, added. split; [now rewrite Hw' | exact Hkept]. }
  unfold placeOrder_saved.
  destruct (is_str (paymentMethod order) "cod"
            || is_str (paymentMethod order) "none");
    [destruct (cart_error env); now apply Happ|].
  destruct (sessions_create env) as [msg | session];
    [destruct (cart_error env); now apply Happ|].
  destruct (attach_error env); [destruct (cart_error env); now apply Happ|].
  destruct (session_url session) as [url|];
    [destruct (truthy_str url)|]; destruct (cart_error env);
    now apply (Hpatch (session_id session)).
Qed.

Lemma step_extends (w : World) (op : Op) : extends w (step w op).
Proof.
  destruct op as [env req | env req | env req | env req]; simpl.
  - unfold placeOrder.
    destruct (negb (truthy (resolve_userId req))); [apply extends_refl|].
    destruct (body_items req) as [[|a rest]|]; try apply extends_refl.
    destruct (normalizedItems (a :: rest)); [|apply extends_refl].
    destruct (save_error env); [apply extends_refl|].
    apply placeOrder_saved_extends.
  - unfold verifyOrder.
    destruct (negb (truthy (verify_orderId req))); [apply extends_refl|].
    destruct (success_is_true (verify_success req)), (db_error env);
      try apply extends_refl; apply extends_evolved; simpl;
      apply findByIdAndUpdate_value_evolves;
      auto using set_paid_evolves, set_status_evolves.
  - unfold stripeWebhookHandler.
    destruct (webhook_event env req) as [msg | event]; [apply extends_refl|].
    destruct (checkout_completed event); [|apply extends_refl].
    destruct (session_orderId (data_object event)).
    { destruct (update_error env); [apply extends_refl|].
      apply extends_evolved. simpl.
      apply findByIdAndUpdate_evolves, set_paid_evolves. }
    destruct (session_truthy_id (data_object event)) as [sid|];
      [|apply extends_refl].
    destruct (findOne_error env); [apply extends_refl|].
    destruct (findOne_bySession sid (orders w)); [|apply extends_refl].
    destruct (update_error env); [apply extends_refl|].
    apply extends_evolved. simpl.
    apply findByIdAndUpdate_evolves, set_paid_evolves.
  - unfold updateStatus.
    destruct (negb (truthy (status_orderId req))
              || negb (truthy (status_status req))); [apply extends_refl|].
    destruct (db_error env); [apply extends_refl|].
    apply extends_evolved. simpl.
    apply findByIdAndUpdate_value_evolves, set_status_evolves.
Qed.

(** X21: no sequence of requests to the four endpoints deletes, reorders
    or rewrites an order: after any sequence, the collection is the old
    one, order for order, followed by the orders placed since; each old
    order has kept its id, user, items, amount, address, payment method
    and creation time, and an order that was paid is still paid. *)
Theorem orders_only_evolve (w : World) (ops : list Op) :
  exists kept added,
    orders (run w ops) = kept ++ added
    /\ Forall2 evolves (orders w) kept.
Proof.
  revert w. induction ops as [|op ops IH]; intros w.
  - apply extends_refl.
  - simpl. apply (extends_trans w (step w op)); [apply step_extends | apply IH].
Qed.

(** X22: [verifyOrder], [updateStatus] and the webhook handler write
    orders only: they never touch a user or a cart and never contact the
    gateway. *)
Theorem payment_handlers_write_orders_only (w : World) :
  (forall env req,
     users (snd (verifyOrder env req w)) = users w
     /\ gateway (snd (verifyOrder env req w)) = gateway w)
  /\ (forall env req,
        users (snd (updateStatus env req w)) = users w
        /\ gateway (snd (updateStatus env req w)) = gateway w)
  /\ (forall env req,
        users (snd (stripeWebhookHandler env req w)) = users w
        /\ gateway (snd (stripeWebhookHandler env req w)) = gateway w).
Proof.
  split; [|split]; intros env req.
  - unfold verifyOrder.
    destruct (negb (truthy (verify_orderId req))); [now split|].
    now destruct (success_is_true (verify_success req)), (db_error env).
  - unfold updateStatus.
    destruct (negb (truthy (status_orderId req))
              || negb (truthy (status_status req))); [now split|].
    now destruct (db_error env).
  - unfold stripeWebhookHandler.
    destruct (webhook_event env req) as [msg | event]; [now split|].
    destruct (checkout_completed event); [|now split].
    destruct (session_orderId (data_object event));
      [now destruct (update_error env)|].
    destruct (session_truthy_id (data_object event)) as [sid|]; [|now split].
    destruct (findOne_error env); [now split|].
    destruct (findOne_bySession sid (orders w)); [|now split].
    now destruct (update_error env).
Qed.

Lemma placeOrder_users (env : PlaceEnv) (req : PlaceRequest) (w : World) :
  users (snd (placeOrder env req w)) = users w
  \/ users (snd (placeOrder env req w))
     = clearCart (resolve_userId req) (users w).
Proof.
  unfold placeOrder.
  destruct (negb (truthy (resolve_userId req))); [now left|].
  destruct (body_items req) as [[|a rest]|]; try now left.
  destruct (normalizedItems (a :: rest)); [|now left].
  destruct (save_error env); [now left|].
  rewrite placeOrder_saved_users.
  destruct (cart_error env); [now left | now right].
Qed.

(** X23: of the user collection, [placeOrder] can change one thing only,
    the cart of the resolved user: every other user record is as before,
    no user record appears or disappears, and every account is kept. *)
Theorem placeOrder_touches_one_cart
    (env : PlaceEnv) (req : PlaceRequest) (w : World) (uid : string) :
  (resolve_userId req <> VStr uid ->
   users (snd (placeOrder env req w)) !! uid = users w !! uid)
  /\ account <$> (users (snd (placeOrder env req w)) !! uid)
     = account <$> (users w !! uid).
Proof.
  destruct (placeOrder_users env req w) as [-> | ->]; [now split|].
  unfold clearCart. destruct (resolve_userId req) as [| | b | n | s];
    try now split.
  destruct (decide (s = uid)) as [-> | Hne].
  - split; [congruence|].
    rewrite lookup_alter_eq. now destruct (users w !! uid).
  - rewrite lookup_alter_ne by exact Hne. now split.
Qed.

Lemma normalizedItems_valid (its : list RawItem) (nits : list Item) :
  normalizedItems its = Ok nits -> Forall valid_item nits.
Proof.
  unfold normalizedItems. revert nits.
  induction its as [|a rest IH]; intros nits Hok.
  - injection Hok as <-. constructor.
  - destruct (map_result_Ok_cons _ _ _ _ Hok) as (b & bs' & -> & Hb & Hrest).
    apply normalizeItem_Ok in Hb as (_ & _ & Hvalid).
    constructor; [exact Hvalid | now apply IH].
Qed.

Lemma step_items_validated (w : World) (op : Op) :
  items_validated w -> items_validated (step w op).
Proof.
  intros Hw.
  assert (Hpatch : forall key patch,
            (forall o, items (patch o) = items o) ->
            forall os, Forall (fun o => Forall valid_item (items o)) os ->
            Forall (fun o => Forall valid_item (items o))
              (findByIdAndUpdate key patch os)).
  { intros key patch Hitems os Hos.
    apply findByIdAndUpdate_Forall; [|exact Hos].
    intros o Ho. now rewrite Hitems. }
  assert (Hvalue : forall key patch,
            (forall o, items (patch o) = items o) ->
            Forall (fun o => Forall valid_item (items o))
              (findByIdAndUpdate_value key patch (orders w))).
  { intros key patch Hitems. destruct key; simpl; auto. }
  destruct op as [env req | env req | env req | env req]; simpl.
  - unfold placeOrder.
    destruct (negb (truthy (resolve_userId req))); [exact Hw|].
    destruct (body_items req) as [[|a rest]|]; try exact Hw.
    destruct (normalizedItems (a :: rest)) as [nits | msg] eqn:Hnorm;
      [|exact Hw].
    destruct (save_error env); [exact Hw|].
    assert (Hnew : Forall (fun o => Forall valid_item (items o))
                     (orders w ++ [newOrder env req nits])).
    { apply Forall_app. split; [exact Hw|].
      constructor; [|constructor].
      simpl. exact (normalizedItems_valid _ _ Hnorm). }
    unfold items_validated, placeOrder_saved.
    destruct (is_str (paymentMethod (newOrder env req nits)) "cod"
              || is_str (paymentMethod (newOrder env req nits)) "none");
      [now destruct (cart_error env)|].
    destruct (sessions_create env) as [msg | session];
      [now destruct (cart_error env)|].
    destruct (attach_error env); [now destruct (cart_error env)|].
    destruct (session_url session) as [url|];
      [destruct (truthy_str url)|]; destruct (cart_error env); simpl;
      now apply Hpatch.
  - unfold verifyOrder.
    destruct (negb (truthy (verify_orderId req))); [exact Hw|].
    destruct (success_is_true (verify_success req)), (db_error env);
      try exact Hw; now apply Hvalue.
  - unfold stripeWebhookHandler.
    destruct (webhook_event env req) as [msg | event]; [exact Hw|].
    destruct (checkout_completed event); [|exact Hw].
    destruct (session_orderId (data_object event)).
    { destruct (update_error env); [exact Hw | now apply Hpatch]. }
    destruct (session_truthy_id (data_object event)) as [sid|]; [|exact Hw].
    destruct (findOne_error env); [exact Hw|].
    destruct (findOne_bySession sid (orders w)); [|exact Hw].
    destruct (update_error env); [exact Hw | now apply Hpatch].
  - unfold updateStatus.
    destruct (negb (truthy (status_orderId req))
              || negb (truthy (status_status req))); [exact Hw|].
    destruct (db_error env); [exact Hw | now apply Hvalue].
Qed.

(** X24: server-side validation is an invariant of the collection: if
    every stored line item has a price that is a non-negative number and a
    quantity that is a non-zero number, this is so after any sequence of
    requests to the four endpoints, whatever the clients send. *)
Theorem items_stay_validated (w : World) (ops : list Op) :
  items_validated w -> items_validated (run w ops).
Proof.
  revert w. induction ops as [|op ops IH]; intros w Hw; simpl.
  - exact Hw.
  - apply IH. now apply step_items_validated.
Qed.

(** ** Listings *)

Lemma insert_newest_Permutation (o : Order) (os : list Order) :
  Permutation (insert_newest o os) (o :: os).
Proof.
  induction os as [|x rest IH]; simpl; [reflexivity|].
  destruct (createdAt x <=? createdAt o)%Z; [reflexivity|].
  rewrite IH. apply perm_swap.
Qed.

Lemma sort_newest_first_Permutation (os : list Order) :
  Permutation (sort_newest_first os) os.
Proof.
  induction os as [|o rest IH]; simpl; [reflexivity|].
  rewrite insert_newest_Permutation. now constructor.
Qed.

Lemma insert_newest_sorted (o : Order) (os : list Order) :
  newest_first os -> newest_first (insert_newest o os).
Proof.
  unfold newest_first. intros Hsorted.
  induction Hsorted as [|x rest Hrest IH Hx]; simpl.
  - constructor; constructor.
  - destruct (createdAt x <=? createdAt o)%Z eqn:Hcmp.
    + apply Z.leb_le in Hcmp.
      constructor; [now constructor|].
      constructor; [exact Hcmp|].
      eapply List.Forall_impl; [|exact Hx]. simpl. intros b Hb. lia.
    + apply Z.leb_gt in Hcmp.
      constructor; [exact IH|].
      apply (Permutation_Forall
               (Permutation_sym (insert_newest_Permutation o rest))).
      constructor; [lia | exact Hx].
Qed.

Lemma sort_newest_first_sorted (os : list Order) :
  newest_first (sort_newest_first os).
Proof.
  induction os as [|o rest IH]; simpl.
  - constructor.
  - now apply insert_newest_sorted.
Qed.

(** A truthy value is matched by the filter on itself. *)
Lemma value_eqb_truthy_refl (v : value) :
  truthy v = true -> value_eqb v v = true.
Proof.
  destruct v as [| | b | n | s]; simpl; try discriminate.
  - now destruct b.
  - unfold truthy_num, PrimFloat.is_nan.
    destruct (PrimFloat.eqb n n); [reflexivity | discriminate].
  - intros _. apply String.eqb_refl.
Qed.

(** X25: [userOrders] answers 401 'Unauthorized' when no user id can be
    resolved and 500 'Error fetching orders' when the query rejects;
    otherwise it answers 200 with exactly the orders of the collection
    whose user id is the resolved one (each once, none of another user),
    newest first. *)
Theorem userOrders_lists_own_orders
    (env : QueryEnv) (req : UserOrdersRequest) (w : World) :
  (truthy (query_userId req) = false ->
   userOrders env req w
   = {| query_statusCode := 401;
        query_body := QMessage false "Unauthorized" |})
  /\ (truthy (query_userId req) = true ->
      find_error env = true ->
      userOrders env req w
      = {| query_statusCode := 500;
           query_body := QMessage false "Error fetching orders" |})
  /\ (truthy (query_userId req) = true ->
      find_error env = false ->
      exists data,
        userOrders env req w
        = {| query_statusCode := 200; query_body := QData data |}
        /\ Permutation data
             (List.filter
                (fun o => value_eqb (userId o) (query_userId req))
                (orders w))
        /\ (forall o,
              In o data
              <-> In o (orders w)
                  /\ value_eqb (userId o) (query_userId req) = true)
        /\ newest_first data).
Proof.
  unfold userOrders. split; [|split].
  - now intros ->.
  - now intros -> ->.
  - intros -> ->. simpl. eexists. split; [reflexivity|].
    pose proof (sort_newest_first_Permutation
                  (List.filter
                     (fun o => value_eqb (userId o) (query_userId req))
                     (orders w))) as Hperm.
    split; [exact Hperm|]. split; [|apply sort_newest_first_sorted].
    intros o. split; intros Hin.
    + apply (Permutation_in o Hperm) in Hin. now apply filter_In in Hin.
    + apply (Permutation_in o (Permutation_sym Hperm)). now apply filter_In.
Qed.

(** X26: [listOrders] answers 200 with every order of the collection, each
    once, newest first (orders of the same instant in any order), and 500
    'Error' when the query rejects. *)
Theorem listOrders_lists_all (env : QueryEnv) (w : World) :
  (find_error env = true ->
   listOrders env w
   = {| query_statusCode := 500; query_body := QMessage false "Error" |})
  /\ (find_error env = false ->
      exists data,
        listOrders env w
        = {| query_statusCode := 200; query_body := QData data |}
        /\ Permutation data (orders w)
        /\ newest_first data).
Proof.
  unfold listOrders. split; intros ->; [reflexivity|].
  eexists. split; [reflexivity|].
  split; [apply sort_newest_first_Permutation | apply sort_newest_first_sorted].
Qed.

(** X27: an order that was placed is listed: once [placeOrder] has saved
    the order, and whatever happens afterwards in that call, [userOrders]
    for the same user lists an order with the new id and the normalised
    items. *)
Theorem placeOrder_then_userOrders
    (env : PlaceEnv) (req : PlaceRequest) (w : World) (nits : list Item)
    (qenv : QueryEnv) (qreq : UserOrdersRequest) :
  validated req nits ->
  save_error env = None ->
  query_userId qreq = resolve_userId req ->
  find_error qenv = false ->
  exists data o,
    userOrders qenv qreq (snd (placeOrder env req w))
    = {| query_statusCode := 200; query_body := QData data |}
    /\ In o data
    /\ _id o = new_id env
    /\ items o = nits.
Proof.
  intros Hval Hsave Hsame Hfind.
  assert (Huid : truthy (query_userId qreq) = true).
  { rewrite Hsame. now destruct Hval. }
  unfold userOrders. rewrite Huid, Hfind. simpl.
  rewrite (placeOrder_validated env req w nits Hval Hsave).
  pose proof (placeOrder_saved_map created_fields env req
                (newOrder env req nits) w
                (fun sid o => eq_refl)) as Hfields.
  assert (Hin : In (created_fields (newOrder env req nits))
                  (map created_fields
                     (orders (snd (placeOrder_saved env req
                                     (newOrder env req nits) w))))).
  { rewrite Hfields. apply in_or_app. right. now left. }
  apply in_map_iff in Hin as (o & Ho & Hin).
  unfold created_fields in Ho. simpl in Ho.
  injection Ho as Hoid Houid Hoitems _ _ _ _.
  eexists. exists o. split; [reflexivity|].
  split; [|now split].
  apply (Permutation_in o
           (Permutation_sym (sort_newest_first_Permutation _))).
  apply filter_In. split; [exact Hin|].
  rewrite Houid, Hsame. apply value_eqb_truthy_refl.
  now destruct Hval.
Qed.

End Controller.

(** ** The controller on the sample requests *)

Local Abbreviation parse := digits_StringToNumber.
Local Abbreviation print := integer_NumberToString.

Lemma placeOrder_invalid_price_rejected_witness :
  snd (placeOrder parse print (calm (Some "80") false)
         (order_request [tea; refund] (VStr "cod")) shop) = shop
  /\ exists it,
       In it [tea; refund]
       /\ invalid_price (Number parse (raw_price it)) = true
       /\ fst (placeOrder parse print (calm (Some "80") false)
                 (order_request [tea; refund] (VStr "cod")) shop)
          = respond 500 (BMessage false (invalid_price_message print it)).
Proof.
  destruct (placeOrder_invalid_price_rejected parse print
              (calm (Some "80") false)
              (order_request [tea; refund] (VStr "cod")) shop [tea; refund])
    as [Hstores Hanswer].
  - reflexivity.
  - apply Exists_cons_tl, Exists_cons_hd. reflexivity.
  - split; [exact Hstores | now apply Hanswer].
Defined.

Lemma placeOrder_offline_no_gateway_witness :
  gateway (snd (placeOrder parse print (calm (Some "80") false)
                  (order_request [tea; bun] (VStr "cod")) shop))
  = gateway shop
  /\ exists order,
       fst (placeOrder parse print (calm (Some "80") false)
              (order_request [tea; bun] (VStr "cod")) shop)
       = respond 201
           (BOrder order "Order placed (no online payment required).")
       /\ status order = VStr "pending"
       /\ payment order = false
       /\ stripeSessionId order = None
       /\ orders (snd (placeOrder parse print (calm (Some "80") false)
                         (order_request [tea; bun] (VStr "cod")) shop))
          = orders shop ++ [order].
Proof.
  destruct (placeOrder_offline_no_gateway parse print (calm (Some "80") false)
              (order_request [tea; bun] (VStr "cod")) shop eq_refl)
    as [Hgateway Hsuccess].
  split; [exact Hgateway|].
  eapply Hsuccess; [|reflexivity].
  split; [reflexivity|].
  exists [tea; bun]. split; [reflexivity|]. split; [discriminate|].
  reflexivity.
Defined.

Lemma placeOrder_cart_cleared_best_effort_witness :
  cartData <$> (users (snd (placeOrder parse print (calm (Some "80") false)
                              (order_request [tea; bun] VUndefined) shop))
                !! "u1") = Some ∅
  /\ fst (placeOrder parse print (calm (Some "80") true)
            (order_request [tea; bun] VUndefined) shop)
     = fst (placeOrder parse print (calm (Some "80") false)
              (order_request [tea; bun] VUndefined) shop)
  /\ map _id (orders (snd (placeOrder parse print (calm (Some "80") true)
                             (order_request [tea; bun] VUndefined) shop)))
     = ["o1"]
  /\ users (snd (placeOrder parse print (calm (Some "80") true)
                   (order_request [tea; bun] VUndefined) shop))
     = users shop.
Proof.
  assert (Hval : exists nits,
            validated parse print (order_request [tea; bun] VUndefined) nits).
  { eexists. split; [reflexivity|].
    exists [tea; bun]. split; [reflexivity|]. split; [discriminate|].
    reflexivity. }
  destruct Hval as [nits Hval].
  destruct (placeOrder_cart_cleared_best_effort parse print (calm (Some "80") false)
              (order_request [tea; bun] VUndefined) shop nits Hval eq_refl)
    as [Hcleared _].
  destruct (placeOrder_cart_cleared_best_effort parse print (calm (Some "80") true)
              (order_request [tea; bun] VUndefined) shop nits Hval eq_refl)
    as [_ Hfailed].
  destruct (Hcleared eq_refl) as [_ Hcart].
  destruct (Hfailed eq_refl) as (Hresp & _ & _ & Hids & Husers).
  split; [|split; [exact Hresp | split; [exact Hids | exact Husers]]].
  apply (Hcart "u1" {| account := "asha"; cartData := {[ "p1" := 2%Z ]} |});
    reflexivity.
Defined.

(** The example of the specification: items priced 100 (twice) and 50
    (once) with a delivery fee of 80. *)
Lemma placeOrder_stripe_line_items_witness :
  exists rq,
    gateway (snd (placeOrder parse print (calm (Some "80") false)
                    (order_request [tea; bun] VUndefined) shop))
    = gateway shop ++ [rq]
    /\ map amount_qty (line_items rq)
       = [(10000%float, 2%float); (5000%float, 1%float);
          (8000%float, 1%float)].
Proof.
  destruct (placeOrder_stripe_line_items parse print (calm (Some "80") false)
              (order_request [tea; bun] VUndefined) shop
              (snd (placeOrder parse print (calm (Some "80") false)
                      (order_request [tea; bun] VUndefined) shop))
              "https://checkout.example/cs_1" eq_refl)
    as (nits & rq & Hval & Hgateway & Hlines & Hitems & Hfee).
  exists rq. split; [exact Hgateway|].
  destruct Hval as (_ & its & Hits & _ & Hnorm).
  injection Hits as <-.
  vm_compute in Hnorm. injection Hnorm as <-.
  rewrite Hlines, map_app, Hitems, (Hfee eq_refl).
  reflexivity.
Defined.

Lemma placeOrder_zero_fee_still_charged_witness :
  exists rq,
    gateway (snd (placeOrder parse print (calm (Some "0") false)
                    (order_request [tea; bun] VUndefined) shop))
    = gateway shop ++ [rq]
    /\ map amount_qty (line_items rq)
       = [(10000%float, 2%float); (5000%float, 1%float);
          (8000%float, 1%float)].
Proof.
  edestruct (placeOrder_zero_fee_still_charged parse print (calm (Some "0") false)
               (order_request [tea; bun] VUndefined) shop)
    as (rq & Hgateway & Hlines).
  - split; [reflexivity|].
    exists [tea; bun]. split; [reflexivity|]. split; [discriminate|].
    reflexivity.
  - reflexivity.
  - reflexivity.
  - right. right. reflexivity.
  - exists rq. split; [exact Hgateway|]. rewrite Hlines. reflexivity.
Defined.

Lemma verifyOrder_outcomes_witness :
  verifyOrder {| db_error := false |}
    {| verify_orderId := VUndefined; verify_success := VBool true |}
    shop_awaiting
  = (respond 400 (BMessage false "orderId required"), shop_awaiting)
  /\ (exists o',
        orders (snd (verifyOrder {| db_error := false |}
                       {| verify_orderId := VStr "o1";
                          verify_success := VStr "true" |} shop_awaiting))
        = [] ++ o' :: []
        /\ _id o' = "o1" /\ payment o' = true
        /\ status o' = VStr "confirmed")
  /\ (exists o',
        orders (snd (verifyOrder {| db_error := false |}
                       {| verify_orderId := VStr "o1";
                          verify_success := VStr "false" |} shop_awaiting))
        = [] ++ o' :: []
        /\ _id o' = "o1" /\ payment o' = payment awaiting
        /\ status o' = VStr "cancelled").
Proof.
  split; [|split].
  - now apply (verifyOrder_outcomes {| db_error := false |}
                 {| verify_orderId := VUndefined;
                    verify_success := VBool true |} shop_awaiting).
  - destruct (verifyOrder_outcomes {| db_error := false |}
                {| verify_orderId := VStr "o1";
                   verify_success := VStr "true" |} shop_awaiting)
      as (_ & Hpaid & _).
    destruct (Hpaid eq_refl eq_refl eq_refl) as [_ Horder].
    apply (Horder "o1" [] awaiting []);
      [reflexivity | reflexivity | constructor | reflexivity].
  - destruct (verifyOrder_outcomes {| db_error := false |}
                {| verify_orderId := VStr "o1";
                   verify_success := VStr "false" |} shop_awaiting)
      as (_ & _ & Hcancelled).
    destruct (Hcancelled eq_refl eq_refl eq_refl) as (_ & _ & Horder).
    apply (Horder "o1" [] awaiting []);
      [reflexivity | reflexivity | constructor | reflexivity].
Defined.

Lemma stripeWebhookHandler_protocol_witness :
  stripeWebhookHandler
    (hook_env (inl "No signatures found matching the expected signature")
       false)
    (delivery (completed_event (Some "o1"))) shop_awaiting
  = (respond 400
       (BText
          "Webhook Error: No signatures found matching the expected signature"),
     shop_awaiting)
  /\ stripeWebhookHandler
       (hook_env (inr (completed_event (Some "o1"))) true)
       (delivery (completed_event (Some "o1"))) shop_awaiting
     = (respond 500 BEmpty, shop_awaiting)
  /\ stripeWebhookHandler
       (hook_env (inr (completed_event (Some "o9"))) false)
       (delivery (completed_event (Some "o9"))) shop_awaiting
     = (acknowledge, shop_awaiting).
Proof.
  split; [|split].
  - now apply (stripeWebhookHandler_protocol
                 (hook_env
                    (inl "No signatures found matching the expected signature")
                    false)
                 (delivery (completed_event (Some "o1"))) shop_awaiting).
  - destruct (stripeWebhookHandler_protocol
                (hook_env (inr (completed_event (Some "o1"))) true)
                (delivery (completed_event (Some "o1"))) shop_awaiting)
      as (_ & Hfail & _).
    apply (Hfail (completed_event (Some "o1"))); reflexivity.
  - destruct (stripeWebhookHandler_protocol
                (hook_env (inr (completed_event (Some "o9"))) false)
                (delivery (completed_event (Some "o9"))) shop_awaiting)
      as (_ & _ & Hack).
    destruct (Hack (completed_event (Some "o9")) eq_refl eq_refl)
      as [_ Hnone].
    apply Hnone. reflexivity.
Defined.

(** The event reaches order o1 through its session id; the second delivery
    finds it paid and leaves it so. *)
Lemma stripeWebhookHandler_idempotent_witness :
  fst (stripeWebhookHandler (hook_env (inr (completed_event None)) false)
         (delivery (completed_event None)) shop_awaiting) = acknowledge
  /\ fst (stripeWebhookHandler (hook_env (inr (completed_event None)) false)
            (delivery (completed_event None))
            (snd (stripeWebhookHandler
                    (hook_env (inr (completed_event None)) false)
                    (delivery (completed_event None)) shop_awaiting)))
     = acknowledge
  /\ snd (stripeWebhookHandler (hook_env (inr (completed_event None)) false)
            (delivery (completed_event None))
            (snd (stripeWebhookHandler
                    (hook_env (inr (completed_event None)) false)
                    (delivery (completed_event None)) shop_awaiting)))
     = with_orders shop_awaiting [set_paid awaiting].
Proof.
  destruct (stripeWebhookHandler_idempotent
              (hook_env (inr (completed_event None)) false)
              (hook_env (inr (completed_event None)) false)
              (delivery (completed_event None))
              (delivery (completed_event None))
              (completed_event None) shop_awaiting
              eq_refl eq_refl eq_refl eq_refl eq_refl eq_refl eq_refl)
    as (Hfirst & Hsecond & Hsame).
  split; [exact Hfirst|]. split; [exact Hsecond|].
  rewrite Hsame. reflexivity.
Defined.


Lemma payment_path_preserves_invariant_witness :
  invariant (run parse print shop paying_ops).
Proof.
  apply (payment_path_preserves_invariant parse print shop paying_ops).
  - constructor.
  - repeat constructor.
Defined.

(** C2, as stated, fails: an order is placed, its payment is verified, and
    an admin status update then moves the paid order to 'delivered'. *)
Lemma updateStatus_breaks_invariant :
  invariant shop
  /\ (exists o,
        In o (orders (run parse print shop delivering_ops))
        /\ payment o = true
        /\ status o = VStr "delivered")
  /\ ~ invariant (run parse print shop delivering_ops).
Proof.
  split; [constructor|].
  assert (Hpaid : exists o,
            In o (orders (run parse print shop delivering_ops))
            /\ payment o = true /\ status o = VStr "delivered").
  { eexists. split; [left; reflexivity|]. split; reflexivity. }
  split; [exact Hpaid|].
  destruct Hpaid as (o & Hin & Hpay & Hstatus).
  intros Hinv. unfold invariant in Hinv.
  rewrite List.Forall_forall in Hinv. specialize (Hinv o Hin Hpay).
  rewrite Hstatus in Hinv. discriminate Hinv.
Qed.

(** C3, as stated, fails: an item priced 0.125 is charged
    [Math.round(12.5) = 13], not the price times 100. *)
Lemma rounding_departs_from_specified_line_items :
  fst (placeOrder parse print (calm (Some "80") false)
         (order_request [sweet] VUndefined) shop)
  = respond 200 (BSession "https://checkout.example/cs_1")
  /\ exists nits rq,
       normalizedItems parse print [sweet] = Ok nits
       /\ gateway (snd (placeOrder parse print (calm (Some "80") false)
                          (order_request [sweet] VUndefined) shop))
          = [rq]
       /\ map amount_qty (line_items rq)
          = [(13%float, 1%float); (8000%float, 1%float)]
       /\ specified_line_items parse (fee_env (Some "80")) nits
          = [(12.5%float, 1%float); (8000%float, 1%float)]
       /\ map amount_qty (line_items rq)
          <> specified_line_items parse (fee_env (Some "80")) nits.
Proof.
  split; [reflexivity|].
  eexists. eexists.
  split; [reflexivity|]. split; [reflexivity|].
  split; [reflexivity|]. split; [reflexivity|].
  vm_compute. intros Heq. discriminate Heq.
Qed.

(** ** Quantities *)

(** A missing quantity becomes 1. *)
Lemma missing_quantity_defaults_to_one
    (StringToNumber : string -> float) (NumberToString : float -> string)
    (it : RawItem) (item : Item) :
  raw_quantity it = VUndefined ->
  normalizeItem StringToNumber NumberToString it = Ok item ->
  quantity item = 1%float.
Proof.
  unfold normalizeItem. intros Hq.
  destruct (invalid_price (Number StringToNumber (raw_price it)));
    [discriminate|].
  intros Hok. injection Hok as <-. simpl. now rewrite Hq.
Qed.

Example single_quantity_is_one :
  option_map (map quantity)
    (match normalizedItems parse print [single] with
     | Ok nits => Some nits
     | Throw _ => None
     end)
  = Some [1%float].
Proof. reflexivity. Qed.

(** C8: a negative quantity passes the normalisation as it is: the order
    placed for [returned] is stored with a line item of quantity -2, which
    is below 1. *)
Theorem placeOrder_stores_negative_quantity :
  exists o it,
    fst (placeOrder parse print (calm (Some "80") false)
           (order_request [returned] (VStr "cod")) shop)
    = respond 201 (BOrder o "Order placed (no online payment required).")
    /\ orders (snd (placeOrder parse print (calm (Some "80") false)
                      (order_request [returned] (VStr "cod")) shop))
       = [o]
    /\ items o = [it]
    /\ quantity it = (-2)%float
    /\ PrimFloat.ltb (quantity it) 1%float = true.
Proof.
  eexists. eexists.
  split; [reflexivity|]. split; [reflexivity|].
  split; [reflexivity|]. split; reflexivity.
Qed.

(** ** [Math.round] on sample numbers *)

Example Math_round_half_up : Math_round 12.5%float = 13%float.
Proof. reflexivity. Qed.

Example Math_round_negative_half : Math_round (-12.5)%float = (-12)%float.
Proof. reflexivity. Qed.

Example Math_round_integer : Math_round 8000%float = 8000%float.
Proof. reflexivity. Qed.

Example Math_round_nan : PrimFloat.is_nan (Math_round nan) = true.
Proof. reflexivity. Qed.

(** ** More of the controller on the sample requests *)

Lemma tea_bun_validated (method : value) :
  validated parse print (order_request [tea; bun] method) tea_bun_items.
Proof.
  split; [reflexivity|].
  exists [tea; bun]. split; [reflexivity|]. split; [discriminate|].
  reflexivity.
Qed.

Lemma placeOrder_status_codes_witness :
  statusCode (fst (placeOrder parse print (calm (Some "80") false)
                     anonymous_request shop)) = 401%Z
  /\ snd (placeOrder parse print (calm (Some "80") false)
            anonymous_request shop) = shop
  /\ statusCode (fst (placeOrder parse print (calm (Some "80") false)
                        (order_request [tea; bun] (VStr "cod")) shop))
     = 201%Z
  /\ statusCode (fst (placeOrder parse print (calm (Some "80") false)
                        (order_request [tea; bun] VUndefined) shop))
     = 200%Z
  /\ statusCode (fst (placeOrder parse print (calm (Some "80") false)
                        (order_request [] VUndefined) shop))
     = 400%Z.
Proof.
  destruct (placeOrder_status_codes parse print (calm (Some "80") false)
              anonymous_request shop) as (H401 & _ & _ & _ & Hsame).
  destruct (placeOrder_status_codes parse print (calm (Some "80") false)
              (order_request [tea; bun] (VStr "cod")) shop)
    as (_ & _ & H201 & _).
  destruct (placeOrder_status_codes parse print (calm (Some "80") false)
              (order_request [tea; bun] VUndefined) shop)
    as (_ & _ & _ & H200 & _).
  destruct (placeOrder_status_codes parse print (calm (Some "80") false)
              (order_request [] VUndefined) shop)
    as (_ & H400 & _).
  split; [apply H401; reflexivity|].
  split; [apply Hsame; left; apply H401; reflexivity|].
  split; [apply H201; exists tea_bun_items;
          split; [apply tea_bun_validated | split; reflexivity]|].
  split.
  - apply H200.
    exists tea_bun_items,
      {| session_id := "cs_1";
         session_url := Some "https://checkout.example/cs_1" |},
      "https://checkout.example/cs_1".
    split; [apply tea_bun_validated | repeat split].
  - apply H400. split; [reflexivity | now right].
Defined.

Lemma placeOrder_save_failure_witness :
  placeOrder parse print
    (stormy (Some "E11000 duplicate key")
       (inl "unreachable") None)
    (order_request [tea; bun] VUndefined) shop
  = (respond 500 (BMessage false "E11000 duplicate key"), shop)
  /\ placeOrder parse print (stormy (Some "") (inl "unreachable") None)
       (order_request [tea; bun] VUndefined) shop
     = (respond 500 (BMessage false "Internal Server Error"), shop).
Proof.
  split.
  - apply (placeOrder_save_failure parse print
             (stormy (Some "E11000 duplicate key") (inl "unreachable") None)
             (order_request [tea; bun] VUndefined) shop tea_bun_items
             "E11000 duplicate key");
      [apply tea_bun_validated | reflexivity].
  - apply (placeOrder_save_failure parse print
             (stormy (Some "") (inl "unreachable") None)
             (order_request [tea; bun] VUndefined) shop tea_bun_items "");
      [apply tea_bun_validated | reflexivity].
Defined.

Lemma normalizedItems_accepts_iff_witness :
  (exists nits, normalizedItems parse print [tea; bun] = Ok nits)
  /\ ~ Forall (fun it => invalid_price (Number parse (raw_price it)) = false)
         [tea; refund].
Proof.
  split.
  - apply (normalizedItems_accepts_iff parse print [tea; bun]).
    repeat constructor.
  - intros Hall.
    apply (normalizedItems_accepts_iff parse print [tea; refund]) in Hall.
    destruct Hall as [nits Hok]. discriminate Hok.
Defined.

Lemma normalizedItems_stores_witness :
  Forall2 (normalizes_to parse) [tea; bun] tea_bun_items
  /\ Forall valid_item tea_bun_items.
Proof.
  apply (normalizedItems_stores parse print [tea; bun] tea_bun_items).
  reflexivity.
Defined.

Lemma normalizeItem_keeps_valid_numbers_witness :
  exists item,
    normalizeItem parse print tea = Ok item
    /\ price item = 100%float /\ quantity item = 2%float.
Proof.
  apply (normalizeItem_keeps_valid_numbers parse print tea 100%float 2%float);
    reflexivity.
Defined.

Lemma placeOrder_no_rollback_witness :
  map created_fields
    (orders (snd (placeOrder parse print
                    (stormy None (inl "Invalid API Key provided") None)
                    (order_request [tea; bun] VUndefined) busy_shop)))
  = map created_fields (orders busy_shop)
    ++ [("o1", VStr "u1", tea_bun_items, VNum 330%float,
         [("city", VStr "Surat")], VStr "stripe", 1700000000000%Z)]
  /\ map payment
       (orders (snd (placeOrder parse print
                       (stormy None (inl "Invalid API Key provided") None)
                       (order_request [tea; bun] VUndefined) busy_shop)))
     = map payment (orders busy_shop) ++ [false]
  /\ map status
       (orders (snd (placeOrder parse print
                       (stormy None (inl "Invalid API Key provided") None)
                       (order_request [tea; bun] VUndefined) busy_shop)))
     = map status (orders busy_shop) ++ [VStr "awaiting_payment"].
Proof.
  apply (placeOrder_no_rollback parse print
           (stormy None (inl "Invalid API Key provided") None)
           (order_request [tea; bun] VUndefined) busy_shop tea_bun_items);
    [apply tea_bun_validated | reflexivity].
Defined.

Lemma placeOrder_checkout_created_witness :
  fst (placeOrder parse print (calm (Some "80") false)
         (order_request [tea; bun] VUndefined) busy_shop)
  = respond 200 (BSession "https://checkout.example/cs_1")
  /\ orders (snd (placeOrder parse print (calm (Some "80") false)
                    (order_request [tea; bun] VUndefined) busy_shop))
     = orders busy_shop
       ++ [set_stripeSessionId "cs_1"
             (newOrder (calm (Some "80") false)
                (order_request [tea; bun] VUndefined) tea_bun_items)]
  /\ gateway (snd (placeOrder parse print (calm (Some "80") false)
                     (order_request [tea; bun] VUndefined) busy_shop))
     = gateway busy_shop
       ++ [checkout_request parse (calm (Some "80") false)
             (newOrder (calm (Some "80") false)
                (order_request [tea; bun] VUndefined) tea_bun_items)].
Proof.
  apply (placeOrder_checkout_created parse print (calm (Some "80") false)
           (order_request [tea; bun] VUndefined) busy_shop tea_bun_items
           {| session_id := "cs_1";
              session_url := Some "https://checkout.example/cs_1" |}
           "https://checkout.example/cs_1");
    try reflexivity; [apply tea_bun_validated|].
  simpl. intros [H | []]. discriminate H.
Defined.

Lemma placeOrder_gateway_failure_witness :
  fst (placeOrder parse print
         (stormy None (inl "Invalid API Key provided") None)
         (order_request [tea; bun] VUndefined) shop)
  = respond 500 (BMessage false "Invalid API Key provided")
  /\ orders (snd (placeOrder parse print
                    (stormy None (inl "Invalid API Key provided") None)
                    (order_request [tea; bun] VUndefined) shop))
     = orders shop
       ++ [newOrder (stormy None (inl "Invalid API Key provided") None)
             (order_request [tea; bun] VUndefined) tea_bun_items]
  /\ gateway (snd (placeOrder parse print
                     (stormy None (inl "Invalid API Key provided") None)
                     (order_request [tea; bun] VUndefined) shop))
     = gateway shop
       ++ [checkout_request parse
             (stormy None (inl "Invalid API Key provided") None)
             (newOrder (stormy None (inl "Invalid API Key provided") None)
                (order_request [tea; bun] VUndefined) tea_bun_items)].
Proof.
  apply (placeOrder_gateway_failure parse print
           (stormy None (inl "Invalid API Key provided") None)
           (order_request [tea; bun] VUndefined) shop tea_bun_items
           "Invalid API Key provided");
    [apply tea_bun_validated | reflexivity | reflexivity | now left].
Defined.

Lemma placeOrder_session_without_url_witness :
  fst (placeOrder parse print
         (stormy None
            (inr {| session_id := "cs_2"; session_url := None |}) None)
         (order_request [tea; bun] VUndefined) busy_shop)
  = respond 500 (BMessage false "Failed to create Stripe checkout session")
  /\ orders (snd (placeOrder parse print
                    (stormy None
                       (inr {| session_id := "cs_2"; session_url := None |})
                       None)
                    (order_request [tea; bun] VUndefined) busy_shop))
     = orders busy_shop
       ++ [set_stripeSessionId "cs_2"
             (newOrder
                (stormy None
                   (inr {| session_id := "cs_2"; session_url := None |})
                   None)
                (order_request [tea; bun] VUndefined) tea_bun_items)].
Proof.
  apply (placeOrder_session_without_url parse print
           (stormy None
              (inr {| session_id := "cs_2"; session_url := None |}) None)
           (order_request [tea; bun] VUndefined) busy_shop tea_bun_items
           {| session_id := "cs_2"; session_url := None |});
    try reflexivity; [apply tea_bun_validated | now left |].
  simpl. intros [H | []]. discriminate H.
Defined.

Lemma placeOrder_unknown_method_witness :
  gateway (snd (placeOrder parse print (calm (Some "80") false)
                  (order_request [tea; bun] (VStr "card")) shop))
  = gateway shop
    ++ [checkout_request parse (calm (Some "80") false)
          (newOrder (calm (Some "80") false)
             (order_request [tea; bun] (VStr "card")) tea_bun_items)]
  /\ map status
       (orders (snd (placeOrder parse print (calm (Some "80") false)
                       (order_request [tea; bun] (VStr "card")) shop)))
     = map status (orders shop) ++ [VStr "pending"].
Proof.
  apply (placeOrder_unknown_method parse print (calm (Some "80") false)
           (order_request [tea; bun] (VStr "card")) shop tea_bun_items);
    try reflexivity. apply tea_bun_validated.
Defined.

Lemma delivery_line_omitted_iff_negative_witness :
  delivery_lines signed_StringToNumber (fee_env (Some "-5")) = []
  /\ delivery_lines signed_StringToNumber (fee_env (Some "0"))
     = [delivery_line 80%float].
Proof.
  split.
  - now apply (delivery_line_omitted_iff_negative signed_StringToNumber
                 (fee_env (Some "-5"))).
  - now apply (delivery_line_omitted_iff_negative signed_StringToNumber
                 (fee_env (Some "0"))).
Defined.

Lemma update_of_unknown_id_witness :
  verifyOrder {| db_error := false |}
    {| verify_orderId := VStr "o9"; verify_success := VStr "true" |} archive
  = (json (BMessage true "Paid"), archive)
  /\ updateStatus {| db_error := false |}
       {| status_orderId := VStr "o9"; status_status := VStr "shipped" |}
       archive
     = (json (BMessage true "Status Updated"), archive).
Proof.
  destruct (update_of_unknown_id {| db_error := false |} "o9" (VStr "true")
              (VStr "shipped") archive eq_refl eq_refl eq_refl)
    as [Hverify Hstatus].
  split; [exact Hverify | now apply Hstatus].
Defined.

Lemma updateStatus_outcomes_witness :
  updateStatus {| db_error := false |}
    {| status_orderId := VStr "o0"; status_status := VStr "" |} archive
  = (respond 400 (BMessage false "orderId and status required"), archive)
  /\ updateStatus {| db_error := true |}
       {| status_orderId := VStr "o0"; status_status := VStr "refunded" |}
       archive
     = (respond 500 (BMessage false "Error"), archive)
  /\ exists o',
       orders (snd (updateStatus {| db_error := false |}
                      {| status_orderId := VStr "o0";
                         status_status := VStr "refunded" |} archive))
       = [] ++ o' :: [awaiting]
       /\ status o' = VStr "refunded"
       /\ payment o' = payment delivered
       /\ created_fields o' = created_fields delivered.
Proof.
  split; [|split].
  - apply (updateStatus_outcomes {| db_error := false |}
             {| status_orderId := VStr "o0"; status_status := VStr "" |}
             archive).
    now right.
  - now apply (updateStatus_outcomes {| db_error := true |}
                 {| status_orderId := VStr "o0";
                    status_status := VStr "refunded" |} archive).
  - destruct (updateStatus_outcomes {| db_error := false |}
                {| status_orderId := VStr "o0";
                   status_status := VStr "refunded" |} archive)
      as (_ & _ & Hwrite).
    destruct (Hwrite eq_refl eq_refl eq_refl) as [_ Horder].
    apply (Horder "o0" [] delivered [awaiting]);
      [reflexivity | reflexivity | constructor | reflexivity].
Defined.

Lemma updateStatus_last_write_wins_witness :
  snd (updateStatus {| db_error := false |}
         {| status_orderId := VStr "o1"; status_status := VStr "shipped" |}
         (snd (updateStatus {| db_error := false |}
                 {| status_orderId := VStr "o1";
                    status_status := VStr "packed" |} archive)))
  = snd (updateStatus {| db_error := false |}
           {| status_orderId := VStr "o1"; status_status := VStr "shipped" |}
           archive).
Proof.
  apply (updateStatus_last_write_wins {| db_error := false |}
           {| db_error := false |}
           {| status_orderId := VStr "o1"; status_status := VStr "packed" |}
           {| status_orderId := VStr "o1"; status_status := VStr "shipped" |}
           archive); reflexivity.
Defined.

Lemma stripeWebhookHandler_ignores_witness :
  stripeWebhookHandler (hook_env (inr refund_event) true)
    (delivery refund_event) shop_awaiting
  = (acknowledge, shop_awaiting).
Proof.
  apply (stripeWebhookHandler_ignores (hook_env (inr refund_event) true)
           (delivery refund_event) shop_awaiting refund_event);
    [reflexivity | now left].
Defined.

Lemma stripeWebhookHandler_without_secret_witness :
  stripeWebhookHandler unsigned_hook_env
    {| stripe_signature := None;
       webhook_body := completed_event (Some "o1") |} archive
  = (acknowledge, with_orders archive ([delivered] ++ set_paid awaiting :: [])).
Proof.
  apply (stripeWebhookHandler_without_secret unsigned_hook_env
           {| stripe_signature := None;
              webhook_body := completed_event (Some "o1") |}
           archive "o1" [delivered] [] awaiting);
    try reflexivity; [now left|].
  constructor; [discriminate | constructor].
Defined.

Lemma placeOrder_then_webhook_by_metadata_witness :
  orders (snd (stripeWebhookHandler
                 (hook_env (inr (completed_event (Some "o1"))) false)
                 (delivery (completed_event (Some "o1")))
                 (snd (placeOrder parse print (calm (Some "80") false)
                         (order_request [tea; bun] VUndefined) busy_shop))))
  = orders busy_shop
    ++ [set_paid
          (set_stripeSessionId "cs_1"
             (newOrder (calm (Some "80") false)
                (order_request [tea; bun] VUndefined) tea_bun_items))].
Proof.
  apply (placeOrder_then_webhook_by_metadata parse print
           (calm (Some "80") false) (order_request [tea; bun] VUndefined)
           busy_shop tea_bun_items
           {| session_id := "cs_1";
              session_url := Some "https://checkout.example/cs_1" |}
           (hook_env (inr (completed_event (Some "o1"))) false)
           (delivery (completed_event (Some "o1")))
           (completed_event (Some "o1")));
    try reflexivity; [apply tea_bun_validated|].
  simpl. intros [H | []]. discriminate H.
Defined.

Lemma placeOrder_then_webhook_by_session_witness :
  orders (snd (stripeWebhookHandler
                 (hook_env (inr (completed_event None)) false)
                 (delivery (completed_event None))
                 (snd (placeOrder parse print (calm (Some "80") false)
                         (order_request [tea; bun] VUndefined) busy_shop))))
  = orders busy_shop
    ++ [set_paid
          (set_stripeSessionId "cs_1"
             (newOrder (calm (Some "80") false)
                (order_request [tea; bun] VUndefined) tea_bun_items))].
Proof.
  apply (placeOrder_then_webhook_by_session parse print
           (calm (Some "80") false) (order_request [tea; bun] VUndefined)
           busy_shop tea_bun_items
           {| session_id := "cs_1";
              session_url := Some "https://checkout.example/cs_1" |}
           (hook_env (inr (completed_event None)) false)
           (delivery (completed_event None))
           (completed_event None));
    try reflexivity; [apply tea_bun_validated|].
  simpl. intros [H | []]. discriminate H.
Defined.

Lemma webhook_agrees_with_verifyOrder_witness :
  snd (stripeWebhookHandler
         (hook_env (inr (completed_event (Some "o1"))) false)
         (delivery (completed_event (Some "o1"))) archive)
  = snd (verifyOrder {| db_error := false |}
           {| verify_orderId := VStr "o1"; verify_success := VBool true |}
           archive).
Proof.
  apply (webhook_agrees_with_verifyOrder
           (hook_env (inr (completed_event (Some "o1"))) false)
           (delivery (completed_event (Some "o1"))) {| db_error := false |}
           (completed_event (Some "o1")) "o1" (VBool true) archive);
    reflexivity.
Defined.

Lemma placeOrder_touches_one_cart_witness :
  users (snd (placeOrder parse print (calm (Some "80") false)
                (order_request [tea; bun] VUndefined) shop)) !! "u2"
  = users shop !! "u2"
  /\ account <$> (users (snd (placeOrder parse print (calm (Some "80") false)
                               (order_request [tea; bun] VUndefined) shop))
                  !! "u1")
     = Some "asha".
Proof.
  split.
  - apply (placeOrder_touches_one_cart parse print (calm (Some "80") false)
             (order_request [tea; bun] VUndefined) shop "u2").
    discriminate.
  - destruct (placeOrder_touches_one_cart parse print
                (calm (Some "80") false)
                (order_request [tea; bun] VUndefined) shop "u1")
      as [_ Haccount].
    rewrite Haccount. reflexivity.
Defined.

Lemma items_stay_validated_witness :
  items_validated (run parse print archive delivering_ops).
Proof.
  apply (items_stay_validated parse print archive delivering_ops).
  repeat constructor.
Defined.

Lemma userOrders_lists_own_orders_witness :
  userOrders {| find_error := false |} (orders_of VUndefined) archive
  = {| query_statusCode := 401; query_body := QMessage false "Unauthorized" |}
  /\ userOrders {| find_error := true |} (orders_of (VStr "u1")) archive
     = {| query_statusCode := 500;
          query_body := QMessage false "Error fetching orders" |}
  /\ exists data,
       userOrders {| find_error := false |} (orders_of (VStr "u1")) archive
       = {| query_statusCode := 200; query_body := QData data |}
       /\ Permutation data [awaiting]
       /\ newest_first data.
Proof.
  destruct (userOrders_lists_own_orders {| find_error := false |}
              (orders_of VUndefined) archive) as (H401 & _ & _).
  destruct (userOrders_lists_own_orders {| find_error := true |}
              (orders_of (VStr "u1")) archive) as (_ & H500 & _).
  destruct (userOrders_lists_own_orders {| find_error := false |}
              (orders_of (VStr "u1")) archive) as (_ & _ & H200).
  split; [now apply H401|]. split; [now apply H500|].
  destruct (H200 eq_refl eq_refl) as (data & Hresp & Hperm & _ & Hsorted).
  exists data. split; [exact Hresp|]. split; [exact Hperm | exact Hsorted].
Defined.

Lemma listOrders_lists_all_witness :
  listOrders {| find_error := true |} archive
  = {| query_statusCode := 500; query_body := QMessage false "Error" |}
  /\ exists data,
       listOrders {| find_error := false |} archive
       = {| query_statusCode := 200; query_body := QData data |}
       /\ Permutation data [delivered; awaiting]
       /\ newest_first data.
Proof.
  split.
  - now apply (listOrders_lists_all {| find_error := true |} archive).
  - now apply (listOrders_lists_all {| find_error := false |} archive).
Defined.

Lemma placeOrder_then_userOrders_witness :
  exists data o,
    userOrders {| find_error := false |} (orders_of (VStr "u1"))
      (snd (placeOrder parse print
              (stormy None (inl "Invalid API Key provided") None)
              (order_request [tea; bun] VUndefined) busy_shop))
    = {| query_statusCode := 200; query_body := QData data |}
    /\ In o data
    /\ _id o = "o1"
    /\ items o = tea_bun_items.
Proof.
  apply (placeOrder_then_userOrders parse print
           (stormy None (inl "Invalid API Key provided") None)
           (order_request [tea; bun] VUndefined) busy_shop tea_bun_items
           {| find_error := false |} (orders_of (VStr "u1")));
    try reflexivity. apply tea_bun_validated.
Defined.

(** [listOrders] on the archive: the newer order comes first. *)
Example listOrders_archive :
  listOrders {| find_error := false |} archive
  = {| query_statusCode := 200; query_body := QData [awaiting; delivered] |}.
Proof. reflexivity. Qed.
